(** * Dairy animal analyzer: breed insights, progress stream, species classifier

    A shallow embedding of [src/insights.py] and [src/image_classifier.py].

    Conventions of the embedding.
    - A Python [str] is a Rocq [string] holding its UTF-8 bytes.  The
      case-mapping methods [lower] and [capitalize] are the ASCII ones; a
      non-ASCII letter never lowers to one of the ASCII letters of "cow" or
      "buffalo", so the species tests of the source are decided exactly.
    - A cell of a pandas table is a [Value]: a numpy [int64], a [str], or the
      missing-value marker NaN.  Other floating-point cells, and integer
      columns of another type ([uint64], Python integers), are outside the
      model; [typed_frame] says which frames the model stands for.
    - Python exceptions are explicit: a function that may raise returns a
      [result]; [try ... except Exception] is a match on it.
    - The zero-shot pipelines and the image loader are external: they are the
      parameters of the sections below. *)

From Stdlib Require Import ZArith List String Ascii Bool Lia.
From Stdlib Require Import Floats.PrimFloat.
From Stdlib Require Import Numbers.DecimalString Numbers.DecimalZ Numbers.DecimalPos.
From Stdlib Require Import Sorting.Sorted.
Import ListNotations.

Set Warnings "-inexact-float".

Local Open Scope string_scope.
Local Open Scope Z_scope.

(** ** Exceptions *)

Inductive Exception : Type :=
| KeyError (key : string)
| ValueError (msg : string)
| OSError (msg : string)
| RuntimeError (msg : string).

Inductive result (A : Type) : Type :=
| Ok (a : A)
| Raise (e : Exception).

Arguments Ok {A} a.
Arguments Raise {A} e.

Definition bind {A B : Type} (m : result A) (k : A -> result B) : result B :=
  match m with
  | Ok a => k a
  | Raise e => Raise e
  end.

Notation "x <- m ;; k" := (bind m (fun x => k))
  (at level 61, m at next level, right associativity).

(** [try: m except Exception: h] *)
Definition try_except {A : Type} (m : result A) (h : Exception -> A) : A :=
  match m with
  | Ok a => a
  | Raise e => h e
  end.

(** ** Python built-ins on text and integers *)

Module Py.

Definition in_range (lo hi : N) (c : ascii) : bool :=
  (N.leb lo (N_of_ascii c) && N.leb (N_of_ascii c) hi)%bool.

Definition is_digit (c : ascii) : bool := in_range 48 57 c.

Definition lower_char (c : ascii) : ascii :=
  if in_range 65 90 c then ascii_of_N (N_of_ascii c + 32) else c.

Definition upper_char (c : ascii) : ascii :=
  if in_range 97 122 c then ascii_of_N (N_of_ascii c - 32) else c.

(** [s.lower()] *)
Fixpoint lower (s : string) : string :=
  match s with
  | EmptyString => EmptyString
  | String c r => String (lower_char c) (lower r)
  end.

(** [s.capitalize()]: first character upper-cased, the rest lower-cased. *)
Definition capitalize (s : string) : string :=
  match s with
  | EmptyString => EmptyString
  | String c r => String (upper_char c) (lower r)
  end.

(** [s * n] for a [str]. *)
Fixpoint repeat_str (s : string) (n : nat) : string :=
  match n with
  | O => EmptyString
  | S k => s ++ repeat_str s k
  end.

(** [str(n)] for an integer. *)
Definition str_of_int (n : Z) : string := NilZero.string_of_int (Z.to_int n).

(** The [','] format option: a comma before every group of three digits,
    counted from the right.  [insert_commas k rds] walks the digits from the
    least significant one; [k] digits of the current group are out. *)
Fixpoint insert_commas (k : nat) (rds : list ascii) : list ascii :=
  match rds with
  | [] => []
  | d :: rest =>
      match k with
      | 3%nat => ","%char :: d :: insert_commas 1 rest
      | _ => d :: insert_commas (S k) rest
      end
  end.

Definition group_digits (ds : string) : string :=
  string_of_list_ascii (rev (insert_commas 0 (rev (list_ascii_of_string ds)))).

(** [format(n, ',')] *)
Definition format_thousands (n : Z) : string :=
  match Z.to_int n with
  | Decimal.Pos d => group_digits (NilZero.string_of_uint d)
  | Decimal.Neg d => "-" ++ group_digits (NilZero.string_of_uint d)
  end.

(** [int(s)] for a [str], base 10: surrounding white space is dropped, one
    sign is allowed, digits may be separated by single underscores.  The
    default limit of 4300 digits ([sys.int_max_str_digits]) applies. *)
Definition is_space (c : ascii) : bool :=
  (in_range 9 13 c || in_range 28 32 c)%bool.

Fixpoint lstrip (l : list ascii) : list ascii :=
  match l with
  | c :: r => if is_space c then lstrip r else l
  | [] => []
  end.

Definition strip (l : list ascii) : list ascii := rev (lstrip (rev (lstrip l))).

Fixpoint digits_value (acc : Z) (after_digit : bool) (l : list ascii) : option Z :=
  match l with
  | [] => if after_digit then Some acc else None
  | c :: r =>
      if is_digit c then
        digits_value (10 * acc + Z.of_N (N_of_ascii c - 48)) true r
      else if Ascii.eqb c "_" then
        if after_digit then digits_value acc false r else None
      else None
  end.

Definition int_max_str_digits : nat := 4300.

Definition int_of_str (s : string) : result Z :=
  let body := strip (list_ascii_of_string s) in
  let '(neg, ds) :=
    match body with
    | "-"%char :: r => (true, r)
    | "+"%char :: r => (false, r)
    | _ => (false, body)
    end in
  if Nat.ltb int_max_str_digits (List.length (filter is_digit ds)) then
    Raise (ValueError "Exceeds the limit (4300 digits) for integer string conversion")
  else
    match digits_value 0 false ds with
    | Some v => Ok (if neg then - v else v)
    | None => Raise (ValueError ("invalid literal for int() with base 10: " ++ s))
    end.

(** Reading a number back from its [','] format: [well_grouped] checks, from
    the right, groups of exactly three digits between commas and a leading
    group of one to three digits after an optional minus sign. *)
Fixpoint grouped_from (k : nat) (rcs : list ascii) : bool :=
  match rcs with
  | [] => Nat.leb 1 k
  | c :: rest =>
      if is_digit c then (Nat.ltb k 3 && grouped_from (S k) rest)%bool
      else if Ascii.eqb c "," then (Nat.eqb k 3 && grouped_from 0 rest)%bool
      else if Ascii.eqb c "-" then
        (Nat.leb 1 k && match rest with [] => true | _ :: _ => false end)%bool
      else false
  end.

Definition well_grouped (s : string) : bool :=
  grouped_from 0 (rev (list_ascii_of_string s)).

Definition not_comma (c : ascii) : bool := negb (Ascii.eqb c ",").

Definition remove_commas (s : string) : string :=
  string_of_list_ascii (filter not_comma (list_ascii_of_string s)).

Definition parse_thousands (s : string) : option Z :=
  if well_grouped s
  then option_map Z.of_int (NilZero.int_of_string (remove_commas s))
  else None.

(** Arithmetic on numpy's [int64] wraps around. *)
Definition wrap_int64 (z : Z) : Z := (z + 2 ^ 63) mod 2 ^ 64 - 2 ^ 63.

Definition int64_range (z : Z) : Prop := - 2 ^ 63 <= z < 2 ^ 63.

End Py.

(** ** Table cells and pandas frames *)

(** [VInt n] is a cell of an [int64] column, so - 2^63 <= n < 2^63 (or the
    Python integer 0 that [record.get] takes as a default); [VStr s] and [VNaN]
    are the cells of a text column, where NaN marks a blank. *)
Inductive Value : Type :=
| VInt (n : Z)
| VStr (s : string)
| VNaN.

(** [v * 12]: the product of an [int64] cell wraps as [int64], a [str] is
    repeated, NaN stays NaN. *)
Definition value_mul (v : Value) (k : nat) : Value :=
  match v with
  | VInt n => VInt (Py.wrap_int64 (n * Z.of_nat k))
  | VStr s => VStr (Py.repeat_str s k)
  | VNaN => VNaN
  end.

(** [int(v)] *)
Definition value_int (v : Value) : result Z :=
  match v with
  | VInt n => Ok n
  | VStr s => Py.int_of_str s
  | VNaN => Raise (ValueError "cannot convert float NaN to integer")
  end.

(** [str(v)], which is also what an f-string field without a format gives. *)
Definition value_str (v : Value) : string :=
  match v with
  | VInt n => Py.str_of_int n
  | VStr s => s
  | VNaN => "nan"
  end.

(** One element of [column == text]: only a [str] cell can be equal. *)
Definition value_eq_str (v : Value) (text : string) : bool :=
  match v with
  | VStr s => String.eqb s text
  | _ => false
  end.

(** A frame is its column names and its rows; a cell a row lacks reads NaN. *)
Record DataFrame : Type := mkDataFrame {
  columns : list string;
  rows : list (list Value)
}.

Definition Series : Type := list (string * Value).

Fixpoint index_of (name : string) (names : list string) : option nat :=
  match names with
  | [] => None
  | n :: r => if String.eqb n name then Some O else option_map S (index_of name r)
  end.

(** [pd.DataFrame({name: [cells], ...})] *)
Definition from_columns (cols : list (string * list Value)) : DataFrame :=
  let height := match cols with [] => O | (_, c) :: _ => List.length c end in
  {| columns := map fst cols;
     rows := map (fun i => map (fun c => nth i (snd c) VNaN) cols) (seq 0 height) |}.

(** [df[name]], as the list of its cells *)
Definition get_column (df : DataFrame) (name : string) : result (list Value) :=
  match index_of name (columns df) with
  | None => Raise (KeyError name)
  | Some j => Ok (map (fun r => nth j r VNaN) (rows df))
  end.

(** [df[mask]] for a boolean mask with one entry per row *)
Definition select_rows (df : DataFrame) (mask : list bool) : DataFrame :=
  {| columns := columns df;
     rows := map fst (filter snd (combine (rows df) mask)) |}.

(** [df.empty] *)
Definition empty (df : DataFrame) : bool :=
  match columns df, rows df with
  | _ :: _, _ :: _ => false
  | _, _ => true
  end.

(** [df.iloc[0]] *)
Fixpoint row_series (names : list string) (r : list Value) : Series :=
  match names with
  | [] => []
  | n :: ns => (n, hd VNaN r) :: row_series ns (tl r)
  end.

Definition iloc0 (df : DataFrame) : result Series :=
  match rows df with
  | r :: _ => Ok (row_series (columns df) r)
  | [] => Raise (RuntimeError "IndexError: single positional indexer is out-of-bounds")
  end.

Fixpoint series_find (record : Series) (key : string) : option Value :=
  match record with
  | [] => None
  | (k, v) :: r => if String.eqb k key then Some v else series_find r key
  end.

(** [record[key]] *)
Definition getitem (record : Series) (key : string) : result Value :=
  match series_find record key with
  | Some v => Ok v
  | None => Raise (KeyError key)
  end.

(** [record.get(key, default)] *)
Definition get (record : Series) (key : string) (default : Value) : Value :=
  match series_find record key with
  | Some v => v
  | None => default
  end.

(** ** insights.py: the reference tables *)

Definition sample_cow_breeds : DataFrame :=
  from_columns
    [ ("Breed_Type", [VStr "Holstein-Friesian"; VStr "Jersey"; VStr "Guernsey"]);
      ("Cost_Of_Cow_INR", [VInt 50000; VInt 45000; VInt 40000]);
      ("Monthly_Income_INR", [VInt 8000; VInt 7500; VInt 7000]);
      ("Popular_Areas", [VStr "Punjab, Haryana"; VStr "Global"; VStr "UK, US"]);
      ("Milk_Per_Day_Litres", [VInt 20; VInt 15; VInt 12]) ].

Definition sample_buff_breeds : DataFrame :=
  from_columns
    [ ("Breed_Type", [VStr "Murrah"; VStr "Nili-Ravi"; VStr "Jaffarabadi"]);
      ("Cost_per_Buffalo_INR", [VInt 60000; VInt 55000; VInt 65000]);
      ("Monthly_Income_per_Buffalo_INR", [VInt 9000; VInt 8500; VInt 9500]);
      ("Popular_Areas", [VStr "Haryana, Punjab"; VStr "Pakistan, Punjab"; VStr "Gujarat"]);
      ("Milk_per_Day_Liters", [VInt 18; VInt 16; VInt 20]) ].

(** Lines 18-37: both files are read in one [try]; if either read fails both
    tables are the built-in samples. *)
Definition load_reference_data (cow_csv buff_csv : result DataFrame)
  : DataFrame * DataFrame :=
  try_except
    (c <- cow_csv ;; b <- buff_csv ;; Ok (c, b))
    (fun _ => (sample_cow_breeds, sample_buff_breeds)).

(** ** insights.py and image_classifier.py *)

(** One entry of a pipeline's answer, [{"score": ..., "label": ...}]. *)
Record Prediction : Type := mkPrediction {
  label : string;
  score : float
}.

(** The dictionary [get_breed_insights] returns, in insertion order. *)
Definition Dict : Type := list (string * string).

Fixpoint dict_get (d : Dict) (key : string) : option string :=
  match d with
  | [] => None
  | (k, v) :: r => if String.eqb k key then Some v else dict_get r key
  end.

(** A progress update: [{'progress': .., 'message': ..}], with ['data'] or not. *)
Record Event : Type := mkEvent {
  progress : Z;
  message : string;
  data : option Dict
}.

Definition format_inr (amount : Z) : string := "₹" ++ Py.format_thousands amount.

(** The amount a currency string shows: the rupee sign, then the number with
    thousands separators. *)
Definition inr_value (s : string) : option Z :=
  match s with
  | String a (String b (String c r)) =>
      if String.eqb (String a (String b (String c EmptyString))) "₹"
      then Py.parse_thousands r else None
  | _ => None
  end.

Definition not_available (breed_type : string) : Dict :=
  [ ("breed_type", breed_type);
    ("starting_expenditure", "Data not available");
    ("annual_income", "Data not available");
    ("farmers_percent", "--");
    ("popular_areas", "Data not available");
    ("milk_per_day", "Data not available");
    ("monthly_income", "Data not available") ].

Definition error_fetching (breed_type : string) : Dict :=
  [ ("breed_type", breed_type);
    ("starting_expenditure", "Error fetching data");
    ("annual_income", "Error fetching data");
    ("farmers_percent", "--");
    ("popular_areas", "Error fetching data");
    ("milk_per_day", "Error fetching data");
    ("monthly_income", "Error fetching data") ].

(** Lines 80-82 and 95-97: [df[df["Breed_Type"] == breed_type]], and its first
    row unless the selection is empty. *)
Definition matching_rows (df : DataFrame) (breed_type : string) : result DataFrame :=
  col <- get_column df "Breed_Type" ;;
  Ok (select_rows df (map (fun v => value_eq_str v breed_type) col)).

Definition first_match (df : DataFrame) (breed_type : string) : result (option Series) :=
  breed_data <- matching_rows df breed_type ;;
  if negb (empty breed_data) then
    record <- iloc0 breed_data ;; Ok (Some record)
  else Ok None.

(** Lines 83-91: the dictionary of a cow row. *)
Definition cow_insights (record : Series) : result Dict :=
  name <- getitem record "Breed_Type" ;;
  cost_cell <- getitem record "Cost_Of_Cow_INR" ;;
  cost <- value_int cost_cell ;;
  annual <- value_int (value_mul (get record "Monthly_Income_INR" (VInt 0)) 12) ;;
  monthly <- value_int (get record "Monthly_Income_INR" (VInt 0)) ;;
  Ok [ ("breed_type", value_str name);
       ("starting_expenditure", format_inr cost);
       ("annual_income", format_inr annual);
       ("farmers_percent", "--");
       ("popular_areas", value_str (get record "Popular_Areas" (VStr "N/A")));
       ("milk_per_day", value_str (get record "Milk_Per_Day_Litres" (VStr "N/A")) ++ " Liters");
       ("monthly_income", format_inr monthly) ].

(** Lines 98-106: the dictionary of a buffalo row. *)
Definition buffalo_insights (record : Series) : result Dict :=
  name <- getitem record "Breed_Type" ;;
  cost <- value_int (get record "Cost_per_Buffalo_INR" (VInt 0)) ;;
  annual <- value_int (value_mul (get record "Monthly_Income_per_Buffalo_INR" (VInt 0)) 12) ;;
  monthly <- value_int (get record "Monthly_Income_per_Buffalo_INR" (VInt 0)) ;;
  Ok [ ("breed_type", value_str name);
       ("starting_expenditure", format_inr cost);
       ("annual_income", format_inr annual);
       ("farmers_percent", "--");
       ("popular_areas", value_str (get record "Popular_Areas" (VStr "N/A")));
       ("milk_per_day", value_str (get record "Milk_per_Day_Liters" (VStr "N/A")) ++ " Liters");
       ("monthly_income", format_inr monthly) ].

Section Insights.

(** What the module does not define: image files and the loaded pipelines. *)
Variables Path Image : Type.
Variable Image_open : Path -> result Image.

Definition Pipeline : Type := Image -> list Value -> result (list Prediction).

(** The module globals.  [breed_classifier] is [None] when loading the model
    failed (lines 8-15). *)
Variable breed_classifier : option Pipeline.
Variables cow_breeds buff_breeds : option DataFrame.

Definition load_breed_classifier (loaded : result Pipeline) : option Pipeline :=
  try_except (p <- loaded ;; Ok (Some p)) (fun _ => None).

(** Line 54 *)
Definition fallback_labels (animal_type : string) : list Value :=
  if String.eqb (Py.lower animal_type) "cow"
  then [VStr "Holstein-Friesian"; VStr "Jersey"; VStr "Murrah"; VStr "Nili-Ravi"]
  else [VStr "Murrah"; VStr "Nili-Ravi"; VStr "Jaffarabadi"; VStr "Bhadawari"].

(** Lines 48-54: the value of [labels]. *)
Definition candidate_labels (animal_type : string) : result (list Value) :=
  match String.eqb (Py.lower animal_type) "cow", cow_breeds with
  | true, Some df => get_column df "Breed_Type"
  | _, _ =>
      match String.eqb (Py.lower animal_type) "buffalo", buff_breeds with
      | true, Some df => get_column df "Breed_Type"
      | _, _ => Ok (fallback_labels animal_type)
      end
  end.

(** Lines 60-67: the body of the [try]. *)
Definition run_breed_model (clf : Pipeline) (image_path : Path)
    (labels : list Value) (animal_type : string) : result string :=
  image <- Image_open image_path ;;
  results <- clf image labels ;;
  match results with
  | top :: _ => Ok (label top)
  | [] => Ok ("Uncertain " ++ Py.capitalize animal_type)
  end.

Definition detect_breed (image_path : Path) (animal_type : string) : result string :=
  match breed_classifier with
  | None => Ok ("Default " ++ Py.capitalize animal_type)
  | Some clf =>
      labels <- candidate_labels animal_type ;;
      match labels with
      | [] => Ok ("Unknown " ++ Py.capitalize animal_type)
      | _ :: _ =>
          Ok (try_except (run_breed_model clf image_path labels animal_type)
                (fun _ => "Error detecting breed"))
      end
  end.

(** Lines 78-117: the body of the [try] of [get_breed_insights]. *)
Definition lookup_insights (breed_type animal_type : string) : result Dict :=
  found <-
    match String.eqb (Py.lower animal_type) "cow", cow_breeds with
    | true, Some df =>
        hit <- first_match df breed_type ;;
        match hit with
        | Some record => d <- cow_insights record ;; Ok (Some d)
        | None => Ok None
        end
    | _, _ =>
        match String.eqb (Py.lower animal_type) "buffalo", buff_breeds with
        | true, Some df =>
            hit <- first_match df breed_type ;;
            match hit with
            | Some record => d <- buffalo_insights record ;; Ok (Some d)
            | None => Ok None
            end
        | _, _ => Ok None
        end
    end ;;
  match found with
  | Some d => Ok d
  | None => Ok (not_available breed_type)
  end.

Definition get_breed_insights (breed_type animal_type : string) : Dict :=
  try_except (lookup_insights breed_type animal_type)
    (fun _ => error_fetching breed_type).

(** *** The generator [get_insights_stream]

    A generator object is its arguments and the place where it is suspended,
    with the locals that are live there.  [next] runs it to its next [yield]. *)
Inductive Suspended : Type :=
| Created
| After5
| After30
| After50 (detected_breed : string)
| After75 (detected_breed : string)
| After90 (insights_data : Dict)
| After100
| Finished.

Inductive Resumed : Type :=
| Yield (e : Event) (s : Suspended)
| StopIteration
| Propagate (e : Exception).

Definition next (animal : string) (image_path : Path) (s : Suspended) : Resumed :=
  match s with
  | Created =>
      Yield (mkEvent 5 "Initializing analysis..." None) After5
  | After5 =>
      Yield (mkEvent 30 "Analyzing image to detect specific breed..." None) After30
  | After30 =>
      match detect_breed image_path animal with
      | Ok detected_breed =>
          Yield (mkEvent 50
                   ("Breed detected: " ++ detected_breed ++ ". Fetching business insights...")
                   None)
                (After50 detected_breed)
      | Raise e => Propagate e
      end
  | After50 detected_breed =>
      Yield (mkEvent 75 "Retrieving detailed business analytics from database..." None)
            (After75 detected_breed)
  | After75 detected_breed =>
      Yield (mkEvent 90 "Formatting and validating results..." None)
            (After90 (get_breed_insights detected_breed animal))
  | After90 insights_data =>
      Yield (mkEvent 100 "✅ Analysis complete!" (Some insights_data)) After100
  | After100 => StopIteration
  | Finished => StopIteration
  end.

(** How a [for] loop over the generator ends. *)
Inductive Outcome : Type :=
| Exhausted
| Failed (e : Exception)
| Pending (s : Suspended).

(** [for update in gen: ...], collecting the updates; [fuel] bounds the
    number of calls of [next]. *)
Fixpoint drain (fuel : nat) (animal : string) (image_path : Path) (s : Suspended)
  : list Event * Outcome :=
  match fuel with
  | O => ([], Pending s)
  | S fuel' =>
      match next animal image_path s with
      | Yield e s' =>
          let '(es, out) := drain fuel' animal image_path s' in (e :: es, out)
      | StopIteration => ([], Exhausted)
      | Propagate e => ([], Failed e)
      end
  end.

Definition get_insights_stream (fuel : nat) (animal : string) (image_path : Path)
  : list Event * Outcome :=
  drain fuel animal image_path Created.

(** *** image_classifier.py *)

Record ImageClassification : Type := mkImageClassification {
  classifier : Pipeline;
  labels : list Value;
  last_confidence : float
}.

(** [__init__]; loading the pipeline may raise. *)
Definition init (loaded : result Pipeline) : result ImageClassification :=
  clf <- loaded ;;
  Ok {| classifier := clf;
        labels := [VStr "cow"; VStr "buffalo"];
        last_confidence := 0%float |}.

(** The method returns its value, or raises, and leaves the object behind. *)
Definition image_classification (self : ImageClassification) (image_path : Path)
  : result string * ImageClassification :=
  match Image_open image_path with
  | Raise e => (Raise e, self)
  | Ok image =>
      match classifier self image (labels self) with
      | Raise e => (Raise e, self)
      | Ok results =>
          match results with
          | top :: _ =>
              (Ok (label top),
               {| classifier := classifier self;
                  labels := labels self;
                  last_confidence := score top |})
          | [] => (Ok "Unknown", self)
          end
      end
  end.

(** *** Vocabulary of the properties *)

(** The table [get_breed_insights] and [detect_breed] consult for a species
    tag, if any: the tag is compared after lower-casing. *)
Definition selected_table (animal_type : string) : option DataFrame :=
  if String.eqb (Py.lower animal_type) "cow" then cow_breeds
  else if String.eqb (Py.lower animal_type) "buffalo" then buff_breeds
  else None.

(** The cell that holds the monthly income of a row, and the one of its cost. *)
Definition income_column (animal_type : string) : string :=
  if String.eqb (Py.lower animal_type) "cow"
  then "Monthly_Income_INR" else "Monthly_Income_per_Buffalo_INR".

Definition cost_column (animal_type : string) : string :=
  if String.eqb (Py.lower animal_type) "cow"
  then "Cost_Of_Cow_INR" else "Cost_per_Buffalo_INR".

(** The updates of a run in which breed detection returned [detected_breed]. *)
Definition progress_updates (detected_breed : string) : list Event :=
  [ mkEvent 5 "Initializing analysis..." None;
    mkEvent 30 "Analyzing image to detect specific breed..." None;
    mkEvent 50 ("Breed detected: " ++ detected_breed ++ ". Fetching business insights...")
      None;
    mkEvent 75 "Retrieving detailed business analytics from database..." None;
    mkEvent 90 "Formatting and validating results..." None ].

Definition final_update (insights_data : Dict) : Event :=
  mkEvent 100 "✅ Analysis complete!" (Some insights_data).

Definition updates (detected_breed animal : string) : list Event :=
  (progress_updates detected_breed
   ++ [final_update (get_breed_insights detected_breed animal)])%list.

Definition carries_data (e : Event) : bool :=
  match data e with Some _ => true | None => false end.

End Insights.

Arguments detect_breed {Path Image}.
Arguments run_breed_model {Path Image}.
Arguments next {Path Image}.
Arguments drain {Path Image}.
Arguments get_insights_stream {Path Image}.
Arguments image_classification {Path Image}.
Arguments init {Image}.
Arguments load_breed_classifier {Image}.
Arguments classifier {Image}.
Arguments labels {Image}.
Arguments last_confidence {Image}.
Arguments mkImageClassification {Image}.

Definition insight_keys : list string :=
  [ "breed_type"; "starting_expenditure"; "annual_income"; "farmers_percent";
    "popular_areas"; "milk_per_day"; "monthly_income" ].

(** A record all of whose fields read [text], except [breed_type], which is
    [breed_type], and [farmers_percent], which is "--". *)
Definition placeholder_record (text breed_type : string) (d : Dict) : Prop :=
  map fst d = insight_keys
  /\ dict_get d "breed_type" = Some breed_type
  /\ dict_get d "farmers_percent" = Some "--"
  /\ forall key, In key insight_keys ->
       key <> "breed_type" -> key <> "farmers_percent" ->
       dict_get d key = Some text.

(** A table is keyed by breed name: it has the column [Breed_Type]. *)
Definition keyed (table : option DataFrame) : Prop :=
  forall df, table = Some df -> In "Breed_Type" (columns df).

(** No row of the table has the breed name [breed_type]. *)
Definition no_row_named (breed_type : string) (table : option DataFrame) : Prop :=
  forall df, table = Some df ->
    exists col, get_column df "Breed_Type" = Ok col
                /\ Forall (fun v => v <> VStr breed_type) col.

(** A pipeline ranks its answer by descending score. *)
Definition ranked (results : list Prediction) : Prop :=
  StronglySorted (fun p q => PrimFloat.leb (score q) (score p) = true) results.

Definition species_labels : list Value := [VStr "cow"; VStr "buffalo"].

(** The frames pandas builds and the model stands for: each column is an
    [int64] column, all of its cells integers of that range, or a text column
    with no integer cell. *)
Definition int64_cell (v : Value) : Prop :=
  exists n, v = VInt n /\ Py.int64_range n.

Definition text_cell (v : Value) : Prop := forall n, v <> VInt n.

Definition typed_frame (df : DataFrame) : Prop :=
  forall j,
    Forall int64_cell (map (fun r => nth j r VNaN) (rows df))
    \/ Forall text_cell (map (fun r => nth j r VNaN) (rows df)).

(** ** app.py *)

(** [d[key]] for a dictionary *)
Definition dict_getitem (d : Dict) (key : string) : result string :=
  match dict_get d key with
  | Some v => Ok v
  | None => Raise (KeyError key)
  end.

(** Lines 115-123: the rows of the table shown, a metric and its value. *)
Definition metrics_table (insights_data : Dict) : result (list (string * string)) :=
  breed <- dict_getitem insights_data "breed_type" ;;
  expenditure <- dict_getitem insights_data "starting_expenditure" ;;
  monthly <- dict_getitem insights_data "monthly_income" ;;
  annual <- dict_getitem insights_data "annual_income" ;;
  milk <- dict_getitem insights_data "milk_per_day" ;;
  areas <- dict_getitem insights_data "popular_areas" ;;
  farmers <- dict_getitem insights_data "farmers_percent" ;;
  Ok [ ("Breed Type", breed);
       ("Starting Expenditure", expenditure);
       ("Monthly Income", monthly);
       ("Annual Income", annual);
       ("Milk Production (per day)", milk);
       ("Popular Areas", areas);
       ("Farmers Percentage", farmers) ].

(** How the loop of lines 100-107 ends. *)
Inductive LoopEnd : Type :=
| Completed (insights_data : option Dict)
| Crashed (e : Exception)
| Running.

(** What the analyzer page shows below the progress bar. *)
Inductive Rendered : Type :=
| Table (table_rows : list (string * string))
| Nothing
| Traceback (e : Exception)
| Unfinished.

Section App.

Context {Path Image : Type}.
Variable Image_open : Path -> result Image.
Variable breed_classifier : option (Pipeline Image).
Variables cow_breeds buff_breeds : option DataFrame.

(** Lines 49-63: a click on "Classify Animal" builds a classifier, runs it and
    shows the capitalized label and the confidence. *)
Definition classify_click (loaded : result (Pipeline Image)) (image_path : Path)
  : result (string * float) :=
  classifier_object <- init loaded ;;
  let '(outcome, after) := image_classification Image_open classifier_object image_path in
  answer <- outcome ;;
  Ok ("Classification Result: **" ++ Py.capitalize answer ++ "**", last_confidence after).

(** Lines 100-107: the [for] loop over the generator.  Each update moves the
    progress bar, which refuses a value outside 0..1, and replaces the status
    text; [shown] is what was put on screen so far. *)
Fixpoint analyzer_loop (fuel : nat) (animal : string) (image_path : Path)
    (s : Suspended) (shown : list (Z * string)) (insights_data : option Dict)
  : list (Z * string) * LoopEnd :=
  match fuel with
  | O => (shown, Running)
  | S fuel' =>
      match next Image_open breed_classifier cow_breeds buff_breeds animal image_path s with
      | StopIteration => (shown, Completed insights_data)
      | Propagate e => (shown, Crashed e)
      | Yield update s' =>
          if ((0 <=? progress update) && (progress update <=? 100))%bool then
            analyzer_loop fuel' animal image_path s'
              (shown ++ [(progress update, message update)])%list
              (match data update with
               | Some d => Some d
               | None => insights_data
               end)
          else (shown, Crashed (RuntimeError "StreamlitAPIException: Progress Value has invalid value"))
      end
  end.

(** Lines 90-133: a click on "Analyze Animal". *)
Definition analyze (fuel : nat) (animal_type : string) (image_path : Path)
  : list (Z * string) * Rendered :=
  let '(shown, ending) :=
    analyzer_loop fuel (Py.lower animal_type) image_path Created [] None in
  match ending with
  | Completed (Some (entry :: others)) =>
      match metrics_table (entry :: others) with
      | Ok table_rows => (shown, Table table_rows)
      | Raise e => (shown, Traceback e)
      end
  | Completed _ => (shown, Nothing)
  | Crashed e => (shown, Traceback e)
  | Running => (shown, Unfinished)
  end.

(** *** More vocabulary *)

Definition milk_column (animal_type : string) : string :=
  if String.eqb (Py.lower animal_type) "cow"
  then "Milk_Per_Day_Litres" else "Milk_per_Day_Liters".

(** The dictionary of a row of the selected species. *)
Definition record_insights (animal_type : string) (record : Series) : result Dict :=
  if String.eqb (Py.lower animal_type) "cow"
  then cow_insights record else buffalo_insights record.

(** The score a call of [image_classification] would store, if any. *)
Definition top_score (self : ImageClassification Image) (image_path : Path)
  : option float :=
  match Image_open image_path with
  | Ok image =>
      match classifier self image (labels self) with
      | Ok (top :: _) => Some (score top)
      | _ => None
      end
  | Raise _ => None
  end.

(** The object after one call for each path, whatever the calls returned. *)
Definition classify_each (self : ImageClassification Image) (paths : list Path)
  : ImageClassification Image :=
  fold_left (fun object image_path =>
               snd (image_classification Image_open object image_path))
    paths self.

End App.

Arguments classify_click {Path Image}.
Arguments analyzer_loop {Path Image}.
Arguments analyze {Path Image}.
Arguments top_score {Path Image}.
Arguments classify_each {Path Image}.

(** The metrics of the table, in the order shown, with the key of each. *)
Definition display_order : list (string * string) :=
  [ ("Breed Type", "breed_type");
    ("Starting Expenditure", "starting_expenditure");
    ("Monthly Income", "monthly_income");
    ("Annual Income", "annual_income");
    ("Milk Production (per day)", "milk_per_day");
    ("Popular Areas", "popular_areas");
    ("Farmers Percentage", "farmers_percent") ].

(** ** Stand-ins for the external parts, for concrete runs *)

Module Run.

(** Every path opens, to the one image there is. *)
Definition open_any (image_path : unit) : result unit := Ok tt.

(** A model sure of cows, as in the specification's example. *)
Definition cow_model : Pipeline unit :=
  fun _ _ => Ok [mkPrediction "cow" 0.9; mkPrediction "buffalo" 0.1].

Definition jersey_model : Pipeline unit :=
  fun _ _ => Ok [mkPrediction "Jersey" 0.9].

(** A model that answers with no result, and one that fails. *)
Definition silent_model : Pipeline unit := fun _ _ => Ok [].

Definition failing_model : Pipeline unit :=
  fun _ _ => Raise (RuntimeError "inference failed").

(** A cow table with its header and no row. *)
Definition no_cows : DataFrame :=
  from_columns
    [ ("Breed_Type", []); ("Cost_Of_Cow_INR", []); ("Monthly_Income_INR", []);
      ("Popular_Areas", []); ("Milk_Per_Day_Litres", []) ].

(** A cow table whose monthly income, times 12, exceeds 2^63 - 1. *)
Definition rich_cows : DataFrame :=
  from_columns
    [ ("Breed_Type", [VStr "Gir"]);
      ("Cost_Of_Cow_INR", [VInt 50000]);
      ("Monthly_Income_INR", [VInt 768614336404564651]);
      ("Popular_Areas", [VStr "Gujarat"]);
      ("Milk_Per_Day_Litres", [VInt 12]) ].

(** A cow table with a blank cost cell. *)
Definition blank_cost_cows : DataFrame :=
  from_columns
    [ ("Breed_Type", [VStr "Gir"]);
      ("Cost_Of_Cow_INR", [VNaN]);
      ("Monthly_Income_INR", [VInt 6000]);
      ("Popular_Areas", [VStr "Gujarat"]);
      ("Milk_Per_Day_Litres", [VInt 12]) ].

(** A cow table whose breed column has another name. *)
Definition unkeyed_cows : DataFrame :=
  from_columns
    [ ("Breed", [VStr "Gir"]);
      ("Cost_Of_Cow_INR", [VInt 50000]);
      ("Monthly_Income_INR", [VInt 6000]) ].

End Run.

(** * Properties *)

(** ** Thousands separators *)

Lemma filter_insert_commas (k : nat) (rds : list ascii) :
  forallb Py.not_comma rds = true ->
  filter Py.not_comma (Py.insert_commas k rds) = rds.
Proof.
  revert k; induction rds as [|d rest IH]; intros k H; [reflexivity|].
  simpl in H. apply andb_true_iff in H as [Hd Hrest].
  destruct k as [|[|[|[|k]]]]; simpl; rewrite Hd, ?IH; auto.
Qed.

(** The groups [insert_commas] writes pass the check, under a minus sign or
    not. *)
Lemma grouped_insert_commas (sign : string) (k : nat) (rds : list ascii) :
  sign = "" \/ sign = "-" ->
  forallb Py.is_digit rds = true ->
  (k <= 3)%nat ->
  (1 <= k + List.length rds)%nat ->
  Py.grouped_from k (Py.insert_commas k rds ++ list_ascii_of_string sign)%list = true.
Proof.
  intros Hs. revert k; induction rds as [|d rest IH]; intros k H Hk Hlen.
  - simpl in *. destruct Hs; subst sign; simpl; destruct k; try lia; reflexivity.
  - simpl in H. apply andb_true_iff in H as [Hd Hrest].
    destruct k as [|[|[|[|k]]]]; try lia; simpl; rewrite Hd; simpl;
      apply IH; simpl; auto; lia.
Qed.

Lemma forallb_rev {A : Type} (f : A -> bool) (l : list A) :
  forallb f (rev l) = forallb f l.
Proof.
  induction l as [|a l IH]; [reflexivity|].
  simpl. rewrite forallb_app, IH. simpl. rewrite andb_true_r. apply andb_comm.
Qed.

Lemma digit_not_comma (l : list ascii) :
  forallb Py.is_digit l = true -> forallb Py.not_comma l = true.
Proof.
  induction l as [|c l IH]; [reflexivity|].
  simpl. intros H. apply andb_true_iff in H as [Hc Hl].
  rewrite (IH Hl), andb_true_r.
  unfold Py.not_comma. destruct (Ascii.eqb_spec c ","); [subst; discriminate | reflexivity].
Qed.

Lemma string_of_uint_digits (d : Decimal.uint) :
  forallb Py.is_digit (list_ascii_of_string (NilEmpty.string_of_uint d)) = true.
Proof. induction d; simpl; auto. Qed.

Lemma nilzero_digits (d : Decimal.uint) :
  forallb Py.is_digit (list_ascii_of_string (NilZero.string_of_uint d)) = true
  /\ (1 <= List.length (list_ascii_of_string (NilZero.string_of_uint d)))%nat.
Proof.
  split.
  - destruct d; try apply string_of_uint_digits; reflexivity.
  - destruct d; simpl; lia.
Qed.

Lemma remove_commas_group (ds : string) :
  forallb Py.is_digit (list_ascii_of_string ds) = true ->
  Py.remove_commas (Py.group_digits ds) = ds.
Proof.
  intros H. unfold Py.remove_commas, Py.group_digits.
  rewrite list_ascii_of_string_of_list_ascii, filter_rev, filter_insert_commas.
  - rewrite rev_involutive. apply string_of_list_ascii_of_string.
  - rewrite forallb_rev. now apply digit_not_comma.
Qed.

Lemma well_grouped_signed (sign : string) (ds : string) :
  sign = "" \/ sign = "-" ->
  forallb Py.is_digit (list_ascii_of_string ds) = true ->
  (1 <= List.length (list_ascii_of_string ds))%nat ->
  Py.well_grouped (sign ++ Py.group_digits ds) = true.
Proof.
  intros Hs Hd Hlen. unfold Py.well_grouped, Py.group_digits.
  assert (Hrev : rev (list_ascii_of_string
                   (sign ++ string_of_list_ascii
                      (rev (Py.insert_commas 0 (rev (list_ascii_of_string ds))))))
                 = (Py.insert_commas 0 (rev (list_ascii_of_string ds))
                    ++ list_ascii_of_string sign)%list).
  { destruct Hs; subst sign; simpl;
      rewrite list_ascii_of_string_of_list_ascii, ?rev_involutive, ?app_nil_r;
      reflexivity. }
  rewrite Hrev.
  apply grouped_insert_commas;
    [exact Hs | now rewrite forallb_rev | lia | rewrite length_rev; lia].
Qed.

Lemma to_int_roundtrip (n : Z) :
  NilZero.int_of_string (NilZero.string_of_int (Z.to_int n)) = Some (Z.to_int n).
Proof.
  apply NilZero.isi; destruct n; simpl; try discriminate;
    intros H; injection H; apply Unsigned.to_uint_nonnil.
Qed.

(** Reading back what [format(n, ',')] wrote gives [n]: the separators are in
    place and the digits are those of [n]. *)
Lemma parse_thousands_format (n : Z) :
  Py.parse_thousands (Py.format_thousands n) = Some n.
Proof.
  unfold Py.parse_thousands, Py.format_thousands.
  pose proof (to_int_roundtrip n) as Hrt.
  pose proof (DecimalZ.of_to n) as Hof.
  destruct (Z.to_int n) as [d|d];
    destruct (nilzero_digits d) as [Hd Hlen].
  - pose proof (well_grouped_signed "" _ (or_introl eq_refl) Hd Hlen) as Hwg.
    simpl in Hwg. rewrite Hwg.
    rewrite remove_commas_group by exact Hd.
    simpl in Hrt. rewrite Hrt. unfold option_map. now rewrite Hof.
  - rewrite (well_grouped_signed "-" _ (or_intror eq_refl) Hd Hlen).
    assert (Hrm : Py.remove_commas ("-" ++ Py.group_digits (NilZero.string_of_uint d))
                  = String "-" (NilZero.string_of_uint d)).
    { pose proof (remove_commas_group _ Hd) as H.
      unfold Py.remove_commas in *. simpl. now rewrite H. }
    rewrite Hrm.
    change (String "-" (NilZero.string_of_uint d))
      with (NilZero.string_of_int (Decimal.Neg d)).
    rewrite Hrt. unfold option_map. now rewrite Hof.
Qed.

Lemma inr_value_format (n : Z) : inr_value (format_inr n) = Some n.
Proof.
  unfold format_inr, inr_value. simpl. apply parse_thousands_format.
Qed.

(** ** The insight resolver *)

(** Case analysis on the steps of a computation, innermost first. *)
Ltac case_steps H :=
  repeat match type of H with
         | context [match ?x with _ => _ end] =>
             lazymatch x with
             | context [match _ with _ => _ end] => fail
             | _ => let E := fresh "E" in destruct x eqn:E; try discriminate H
             end
         end.

Lemma value_eq_str_true (v : Value) (text : string) :
  value_eq_str v text = true <-> v = VStr text.
Proof.
  destruct v as [n|s|]; simpl; split; try discriminate.
  - intros H. apply String.eqb_eq in H. now subst.
  - intros H. injection H as ->. apply String.eqb_refl.
Qed.

Lemma not_available_placeholder (breed_type : string) :
  placeholder_record "Data not available" breed_type (not_available breed_type).
Proof.
  repeat split.
  intros key Hin Hb Hf. simpl in Hin.
  repeat destruct Hin as [<- | Hin]; try reflexivity; try contradiction.
Qed.

Lemma error_fetching_placeholder (breed_type : string) :
  placeholder_record "Error fetching data" breed_type (error_fetching breed_type).
Proof.
  repeat split.
  intros key Hin Hb Hf. simpl in Hin.
  repeat destruct Hin as [<- | Hin]; try reflexivity; try contradiction.
Qed.

Lemma cow_insights_shape (record : Series) (d : Dict) :
  cow_insights record = Ok d ->
  map fst d = insight_keys /\ dict_get d "farmers_percent" = Some "--".
Proof.
  unfold cow_insights, bind. intros H. case_steps H.
  injection H as <-. split; reflexivity.
Qed.

Lemma buffalo_insights_shape (record : Series) (d : Dict) :
  buffalo_insights record = Ok d ->
  map fst d = insight_keys /\ dict_get d "farmers_percent" = Some "--".
Proof.
  unfold buffalo_insights, bind. intros H. case_steps H.
  injection H as <-. split; reflexivity.
Qed.

Lemma select_rows_none (df : DataFrame) (breed_type : string) (col : list Value) :
  Forall (fun v => v <> VStr breed_type) col ->
  rows (select_rows df (map (fun v => value_eq_str v breed_type) col)) = [].
Proof.
  unfold select_rows; simpl. generalize (rows df) as rs.
  induction col as [|v col IH]; intros rs Hall.
  - destruct rs; reflexivity.
  - inversion Hall as [|? ? Hv Hcol]; subst.
    destruct rs as [|r rs]; [reflexivity|]. simpl.
    destruct (value_eq_str v breed_type) eqn:E.
    + apply value_eq_str_true in E. contradiction.
    + simpl. now apply IH.
Qed.

Lemma first_match_absent (df : DataFrame) (breed_type : string) (col : list Value) :
  get_column df "Breed_Type" = Ok col ->
  Forall (fun v => v <> VStr breed_type) col ->
  first_match df breed_type = Ok None.
Proof.
  intros Hcol Hall. unfold first_match, matching_rows, bind. rewrite Hcol.
  unfold empty. rewrite (select_rows_none df breed_type col Hall).
  destruct (columns _); reflexivity.
Qed.

Section Resolver.

Variables cow_breeds buff_breeds : option DataFrame.

Lemma lookup_insights_shape (breed_type animal_type : string) (d : Dict) :
  lookup_insights cow_breeds buff_breeds breed_type animal_type = Ok d ->
  map fst d = insight_keys /\ dict_get d "farmers_percent" = Some "--".
Proof.
  unfold lookup_insights, bind. intros H.
  destruct (String.eqb (Py.lower animal_type) "cow"), cow_breeds as [cdf|],
    (String.eqb (Py.lower animal_type) "buffalo"), buff_breeds as [bdf|];
    case_steps H; injection H as <-;
    eauto using cow_insights_shape, buffalo_insights_shape;
    split; reflexivity.
Qed.

Lemma lookup_insights_other (breed_type animal_type : string) :
  selected_table cow_breeds buff_breeds animal_type = None ->
  lookup_insights cow_breeds buff_breeds breed_type animal_type
  = Ok (not_available breed_type).
Proof.
  unfold selected_table, lookup_insights. intros H.
  destruct (String.eqb_spec (Py.lower animal_type) "cow") as [Hcow|Hcow].
  - rewrite H, Hcow. reflexivity.
  - destruct cow_breeds;
      (destruct (String.eqb (Py.lower animal_type) "buffalo");
       [rewrite H|]; reflexivity).
Qed.

Lemma lookup_insights_absent (breed_type animal_type : string) :
  no_row_named breed_type (selected_table cow_breeds buff_breeds animal_type) ->
  lookup_insights cow_breeds buff_breeds breed_type animal_type
  = Ok (not_available breed_type).
Proof.
  intros Habs.
  destruct (selected_table cow_breeds buff_breeds animal_type) as [df|] eqn:Hsel;
    [|now apply lookup_insights_other].
  destruct (Habs df eq_refl) as (col & Hcol & Hall).
  pose proof (first_match_absent df breed_type col Hcol Hall) as Hfm.
  unfold selected_table in Hsel. unfold lookup_insights.
  destruct (String.eqb_spec (Py.lower animal_type) "cow") as [Hcow|Hcow].
  - subst cow_breeds. unfold bind. now rewrite Hfm.
  - destruct (String.eqb (Py.lower animal_type) "buffalo"); [|discriminate].
    subst buff_breeds. unfold bind.
    destruct cow_breeds; now rewrite Hfm.
Qed.

(** C10: [get_breed_insights] is total over all text inputs and all tables.
    Whatever the breed name and the species tag, it returns (it cannot raise:
    every exception of its body is caught) a dictionary with exactly the seven
    keys breed_type, starting_expenditure, annual_income, farmers_percent,
    popular_areas, milk_per_day, monthly_income, and farmers_percent is "--".
    A species tag that is neither "cow" nor "buffalo" (compared after
    lower-casing, as the source does) gives the "Data not available" record. *)
Theorem get_breed_insights_total (breed_type animal_type : string) :
  map fst (get_breed_insights cow_breeds buff_breeds breed_type animal_type)
  = [ "breed_type"; "starting_expenditure"; "annual_income"; "farmers_percent";
      "popular_areas"; "milk_per_day"; "monthly_income" ]
  /\ dict_get (get_breed_insights cow_breeds buff_breeds breed_type animal_type)
       "farmers_percent" = Some "--"
  /\ (Py.lower animal_type <> "cow" -> Py.lower animal_type <> "buffalo" ->
      get_breed_insights cow_breeds buff_breeds breed_type animal_type
      = not_available breed_type).
Proof.
  unfold get_breed_insights, try_except.
  destruct (lookup_insights cow_breeds buff_breeds breed_type animal_type)
    as [d|e] eqn:Hbody.
  - destruct (lookup_insights_shape _ _ _ Hbody) as [Hkeys Hfp].
    repeat split; auto.
    intros Hc Hb.
    rewrite lookup_insights_other in Hbody.
    + now injection Hbody as <-.
    + unfold selected_table.
      apply String.eqb_neq in Hc, Hb. now rewrite Hc, Hb.
  - repeat split.
    intros Hc Hb.
    rewrite lookup_insights_other in Hbody; [discriminate|].
    unfold selected_table.
    apply String.eqb_neq in Hc, Hb. now rewrite Hc, Hb.
Qed.

(** C5: for every breed name that equals the breed name of no row of the
    selected species's table (exact comparison of the text, case included),
    [get_breed_insights] returns the record whose every field is
    "Data not available", except breed_type, which echoes the breed name given,
    and farmers_percent, which is "--".  The table is keyed by breed name, as
    in the data model; a species with no table has no row at all. *)
Theorem get_breed_insights_absent (breed_type animal_type : string) :
  no_row_named breed_type (selected_table cow_breeds buff_breeds animal_type) ->
  get_breed_insights cow_breeds buff_breeds breed_type animal_type
  = not_available breed_type
  /\ placeholder_record "Data not available" breed_type
       (get_breed_insights cow_breeds buff_breeds breed_type animal_type).
Proof.
  intros Habs. unfold get_breed_insights.
  rewrite (lookup_insights_absent _ _ Habs). simpl.
  split; [reflexivity | apply not_available_placeholder].
Qed.

(** C7: whenever the lookup or the formatting inside [get_breed_insights]
    raises, whatever the exception, the function returns the record whose
    every field is "Error fetching data", except breed_type, which echoes the
    breed name given, and farmers_percent, which is "--"; the exception does
    not propagate. *)
Theorem get_breed_insights_error (breed_type animal_type : string) (e : Exception) :
  lookup_insights cow_breeds buff_breeds breed_type animal_type = Raise e ->
  get_breed_insights cow_breeds buff_breeds breed_type animal_type
  = error_fetching breed_type
  /\ placeholder_record "Error fetching data" breed_type
       (get_breed_insights cow_breeds buff_breeds breed_type animal_type).
Proof.
  intros Hraise. unfold get_breed_insights. rewrite Hraise. simpl.
  split; [reflexivity | apply error_fetching_placeholder].
Qed.

End Resolver.

(** ** Rows found by the lookup *)

Lemma series_find_row (names : list string) (r : list Value) (key : string) :
  series_find (row_series names r) key
  = option_map (fun j => nth j r VNaN) (index_of key names).
Proof.
  revert r; induction names as [|n ns IH]; intros r; [reflexivity|].
  simpl. destruct (String.eqb n key).
  - destruct r; reflexivity.
  - rewrite IH. destruct (index_of key ns) as [j|]; [|reflexivity].
    simpl. destruct r; [destruct j|]; reflexivity.
Qed.

(** Selecting by the mask [column == breed_type] keeps the rows whose breed
    cell is that text, in order. *)
Lemma matching_rows_filter (df : DataFrame) (breed_type : string) (j : nat) :
  index_of "Breed_Type" (columns df) = Some j ->
  matching_rows df breed_type
  = Ok {| columns := columns df;
          rows := filter (fun r => value_eq_str (nth j r VNaN) breed_type) (rows df) |}.
Proof.
  intros Hj. unfold matching_rows, get_column, bind, select_rows. rewrite Hj.
  do 2 f_equal. rewrite map_map.
  induction (rows df) as [|r rs IH]; [reflexivity|].
  simpl. destruct (value_eq_str (nth j r VNaN) breed_type); simpl; now rewrite IH.
Qed.

(** So the lookup is a search for the first row of that breed. *)
Lemma first_match_filter (df : DataFrame) (breed_type : string) (j : nat) :
  index_of "Breed_Type" (columns df) = Some j ->
  first_match df breed_type
  = Ok match filter (fun r => value_eq_str (nth j r VNaN) breed_type) (rows df) with
       | r :: _ => Some (row_series (columns df) r)
       | [] => None
       end.
Proof.
  intros Hj. unfold first_match, bind.
  rewrite (matching_rows_filter df breed_type j Hj).
  unfold empty, iloc0. simpl.
  destruct (columns df); [discriminate|].
  destruct (filter _ (rows df)); reflexivity.
Qed.

Lemma first_match_keyed (df : DataFrame) (breed_type : string) (hit : option Series) :
  first_match df breed_type = Ok hit ->
  exists j, index_of "Breed_Type" (columns df) = Some j.
Proof.
  unfold first_match, matching_rows, get_column, bind.
  destruct (index_of "Breed_Type" (columns df)) as [j|]; [eauto | discriminate].
Qed.

(** The row the lookup returns is a row of that breed. *)
Lemma first_match_found (df : DataFrame) (breed_type : string) (record : Series) :
  first_match df breed_type = Ok (Some record) ->
  series_find record "Breed_Type" = Some (VStr breed_type).
Proof.
  intros H. destruct (first_match_keyed _ _ _ H) as [j Hj].
  rewrite (first_match_filter df breed_type j Hj) in H.
  destruct (filter _ (rows df)) as [|r rs] eqn:Hf; [discriminate|].
  injection H as <-. rewrite series_find_row, Hj. simpl. f_equal.
  assert (Hin : In r (filter (fun r => value_eq_str (nth j r VNaN) breed_type)
                        (rows df))) by (rewrite Hf; now left).
  apply filter_In in Hin as [_ Hin]. now apply value_eq_str_true.
Qed.

(** A breed name present in the table is found. *)
Lemma first_match_present (df : DataFrame) (breed_type : string) (col : list Value) :
  get_column df "Breed_Type" = Ok col ->
  In (VStr breed_type) col ->
  exists record, first_match df breed_type = Ok (Some record).
Proof.
  unfold get_column. intros Hcol Hin.
  destruct (index_of "Breed_Type" (columns df)) as [j|] eqn:Hj; [|discriminate].
  injection Hcol as <-. apply in_map_iff in Hin as (r & Hr & Hin).
  rewrite (first_match_filter df breed_type j Hj).
  assert (Hf : In r (filter (fun r => value_eq_str (nth j r VNaN) breed_type) (rows df))).
  { apply filter_In. split; [exact Hin|]. now apply value_eq_str_true. }
  destruct (filter _ (rows df)) as [|r0 rs]; [contradiction|]. eexists; reflexivity.
Qed.

(** ** Income figures *)

Lemma wrap_int64_small (z : Z) : Py.int64_range z -> Py.wrap_int64 z = z.
Proof.
  unfold Py.int64_range, Py.wrap_int64. intros H.
  rewrite Z.mod_small; lia.
Qed.

Lemma getitem_find (record : Series) (key : string) (v : Value) :
  series_find record key = Some v -> getitem record key = Ok v.
Proof. unfold getitem. now intros ->. Qed.

Lemma get_find (record : Series) (key : string) (v default : Value) :
  series_find record key = Some v -> get record key default = v.
Proof. unfold get. now intros ->. Qed.

Section Income.

Variables cow_breeds buff_breeds : option DataFrame.

(** Where the product does not overflow, the figures are right: for a species
    in {cow, buffalo} (the tag is compared after lower-casing) and a breed
    name present in that species's table, where the row found holds integers
    for its cost and its monthly income [m], and 12 * m fits a signed 64-bit
    integer, [get_breed_insights] returns a record whose annual_income shows
    12 * m and whose monthly_income shows m, both as a rupee sign followed by
    the number with thousands separators. *)
Theorem income_formatting
    (breed_type animal_type : string) (df : DataFrame) (record : Series) (c m : Z) :
  selected_table cow_breeds buff_breeds animal_type = Some df ->
  first_match df breed_type = Ok (Some record) ->
  series_find record (cost_column animal_type) = Some (VInt c) ->
  series_find record (income_column animal_type) = Some (VInt m) ->
  Py.int64_range (12 * m) ->
  dict_get (get_breed_insights cow_breeds buff_breeds breed_type animal_type)
    "annual_income" = Some (format_inr (12 * m))
  /\ dict_get (get_breed_insights cow_breeds buff_breeds breed_type animal_type)
       "monthly_income" = Some (format_inr m)
  /\ inr_value (format_inr (12 * m)) = Some (12 * m)
  /\ inr_value (format_inr m) = Some m.
Proof.
  intros Hsel Hfm Hcost Hinc Hrange.
  pose proof (first_match_found _ _ _ Hfm) as Hname.
  assert (Hmul : value_mul (VInt m) 12 = VInt (12 * m)).
  { simpl. rewrite (Z.mul_comm m). now rewrite wrap_int64_small. }
  rewrite !inr_value_format.
  unfold selected_table, cost_column, income_column in *.
  unfold get_breed_insights, lookup_insights.
  destruct (String.eqb_spec (Py.lower animal_type) "cow") as [Hcow|Hcow].
  - subst cow_breeds. unfold bind at 1 2. rewrite Hfm.
    unfold cow_insights, bind.
    rewrite (getitem_find _ _ _ Hname), (getitem_find _ _ _ Hcost).
    rewrite (get_find _ _ _ (VInt 0) Hinc), Hmul. simpl value_int. cbv iota.
    repeat split; reflexivity.
  - destruct (String.eqb (Py.lower animal_type) "buffalo"); [|discriminate].
    subst buff_breeds.
    assert (Hbody :
      (hit <- first_match df breed_type ;;
       match hit with
       | Some record => d <- buffalo_insights record ;; Ok (Some d)
       | None => Ok None
       end)
      = Ok (Some
          [ ("breed_type", breed_type);
            ("starting_expenditure", format_inr c);
            ("annual_income", format_inr (12 * m));
            ("farmers_percent", "--");
            ("popular_areas", value_str (get record "Popular_Areas" (VStr "N/A")));
            ("milk_per_day",
             value_str (get record "Milk_per_Day_Liters" (VStr "N/A")) ++ " Liters");
            ("monthly_income", format_inr m) ])).
    { unfold bind at 1. rewrite Hfm. unfold buffalo_insights, bind.
      rewrite (getitem_find _ _ _ Hname).
      rewrite (get_find _ _ _ (VInt 0) Hcost), (get_find _ _ _ (VInt 0) Hinc), Hmul.
      reflexivity. }
    destruct cow_breeds; unfold bind at 1; rewrite Hbody; repeat split; reflexivity.
Qed.

End Income.

(** ** Breed detection *)

Lemma index_of_in (name : string) (names : list string) :
  In name names -> exists j, index_of name names = Some j.
Proof.
  induction names as [|n ns IH]; [contradiction|].
  simpl. destruct (String.eqb_spec n name) as [|Hne]; [eauto|].
  intros [Heq | Hin]; [contradiction|].
  destruct (IH Hin) as [j ->]. simpl. eauto.
Qed.

Lemma get_column_keyed (df : DataFrame) :
  In "Breed_Type" (columns df) -> exists col, get_column df "Breed_Type" = Ok col.
Proof.
  intros Hin. unfold get_column.
  destruct (index_of_in _ _ Hin) as [j ->]. eauto.
Qed.

Lemma fallback_labels_nonempty (animal_type : string) :
  exists first others, fallback_labels animal_type = first :: others.
Proof. unfold fallback_labels. destruct (String.eqb _ _); eauto. Qed.

Section Detection.

Context {Path Image : Type}.
Variable Image_open : Path -> result Image.
Variables cow_breeds buff_breeds : option DataFrame.

Lemma candidate_labels_none (animal_type : string) :
  selected_table cow_breeds buff_breeds animal_type = None ->
  candidate_labels cow_breeds buff_breeds animal_type = Ok (fallback_labels animal_type).
Proof.
  unfold selected_table, candidate_labels. intros H.
  destruct (String.eqb_spec (Py.lower animal_type) "cow") as [Hcow|Hcow].
  - rewrite H, Hcow. reflexivity.
  - destruct cow_breeds;
      (destruct (String.eqb (Py.lower animal_type) "buffalo");
       [rewrite H|]; reflexivity).
Qed.

Lemma candidate_labels_some (animal_type : string) (df : DataFrame) :
  selected_table cow_breeds buff_breeds animal_type = Some df ->
  candidate_labels cow_breeds buff_breeds animal_type = get_column df "Breed_Type".
Proof.
  unfold selected_table, candidate_labels. intros H.
  destruct (String.eqb_spec (Py.lower animal_type) "cow") as [Hcow|Hcow].
  - now rewrite H.
  - destruct (String.eqb (Py.lower animal_type) "buffalo"); [|discriminate].
    rewrite H. destruct cow_breeds; reflexivity.
Qed.

Lemma candidate_labels_keyed (animal_type : string) :
  keyed cow_breeds -> keyed buff_breeds ->
  exists labels, candidate_labels cow_breeds buff_breeds animal_type = Ok labels.
Proof.
  intros Hc Hb.
  destruct (selected_table cow_breeds buff_breeds animal_type) as [df|] eqn:Hsel.
  - rewrite (candidate_labels_some _ _ Hsel). apply get_column_keyed.
    unfold selected_table in Hsel.
    destruct (String.eqb (Py.lower animal_type) "cow"); [now apply Hc|].
    destruct (String.eqb (Py.lower animal_type) "buffalo"); [now apply Hb | discriminate].
  - rewrite (candidate_labels_none _ Hsel). eauto.
Qed.

(** X19: each degraded path of [detect_breed] returns its placeholder, with
    the capitalized species name: "Default {Species}" when no model was
    loaded, "Unknown {Species}" when the candidate list is empty,
    "Error detecting breed" when opening the image or the model call raises,
    "Uncertain {Species}" when the model returns no result.  On tables keyed
    by breed name [detect_breed] returns, whatever the model does. *)
Theorem detect_breed_degraded_paths (image_path : Path) (animal_type : string) :
  (forall e,
     detect_breed Image_open (load_breed_classifier (Raise e))
       cow_breeds buff_breeds image_path animal_type
     = Ok ("Default " ++ Py.capitalize animal_type))
  /\ (forall clf,
        candidate_labels cow_breeds buff_breeds animal_type = Ok [] ->
        detect_breed Image_open (Some clf) cow_breeds buff_breeds image_path animal_type
        = Ok ("Unknown " ++ Py.capitalize animal_type))
  /\ (forall clf first others e,
        candidate_labels cow_breeds buff_breeds animal_type = Ok (first :: others) ->
        (Image_open image_path = Raise e
         \/ exists image, Image_open image_path = Ok image
                          /\ clf image (first :: others) = Raise e) ->
        detect_breed Image_open (Some clf) cow_breeds buff_breeds image_path animal_type
        = Ok "Error detecting breed")
  /\ (forall clf first others image,
        candidate_labels cow_breeds buff_breeds animal_type = Ok (first :: others) ->
        Image_open image_path = Ok image ->
        clf image (first :: others) = Ok [] ->
        detect_breed Image_open (Some clf) cow_breeds buff_breeds image_path animal_type
        = Ok ("Uncertain " ++ Py.capitalize animal_type))
  /\ (forall breed_classifier,
        keyed cow_breeds -> keyed buff_breeds ->
        exists name,
          detect_breed Image_open breed_classifier cow_breeds buff_breeds
            image_path animal_type = Ok name).
Proof.
  unfold detect_breed. split; [|split; [|split; [|split]]].
  - reflexivity.
  - intros clf H. now rewrite H.
  - intros clf first others e H Hraise. rewrite H. simpl.
    unfold run_breed_model.
    destruct Hraise as [-> | (image & -> & Hclf)]; simpl; [|rewrite Hclf]; reflexivity.
  - intros clf first others image H Himg Hres. rewrite H. simpl.
    unfold run_breed_model. rewrite Himg. simpl. now rewrite Hres.
  - intros [clf|] Hc Hb; [|eauto].
    destruct (candidate_labels_keyed animal_type Hc Hb) as [[|first others] ->];
      simpl; eauto.
Qed.

(** C2, as the code has it: the hard-coded list is the candidate label set
    when the selected species has no table (or the tag is neither "cow" nor
    "buffalo"); the model is then invoked on that list, and the label of its
    first result is returned.  When the table is there, keyed by breed name,
    and has no row, the candidate list is empty and [detect_breed] returns
    "Unknown {Species}" whatever the model would answer. *)
Theorem detect_breed_fallback (clf : Pipeline Image) (image_path : Path)
    (animal_type : string) :
  (selected_table cow_breeds buff_breeds animal_type = None ->
   candidate_labels cow_breeds buff_breeds animal_type = Ok (fallback_labels animal_type)
   /\ detect_breed Image_open (Some clf) cow_breeds buff_breeds image_path animal_type
      = Ok (try_except
              (run_breed_model Image_open clf image_path
                 (fallback_labels animal_type) animal_type)
              (fun _ => "Error detecting breed"))
   /\ forall image top others,
        Image_open image_path = Ok image ->
        clf image (fallback_labels animal_type) = Ok (top :: others) ->
        detect_breed Image_open (Some clf) cow_breeds buff_breeds image_path animal_type
        = Ok (label top))
  /\ (forall df,
        selected_table cow_breeds buff_breeds animal_type = Some df ->
        In "Breed_Type" (columns df) ->
        rows df = [] ->
        candidate_labels cow_breeds buff_breeds animal_type = Ok []
        /\ detect_breed Image_open (Some clf) cow_breeds buff_breeds image_path animal_type
           = Ok ("Unknown " ++ Py.capitalize animal_type)).
Proof.
  split.
  - intros Hsel. pose proof (candidate_labels_none _ Hsel) as Hlabels.
    destruct (fallback_labels_nonempty animal_type) as (first & others & Hfb).
    assert (Hrun :
      detect_breed Image_open (Some clf) cow_breeds buff_breeds image_path animal_type
      = Ok (try_except
              (run_breed_model Image_open clf image_path
                 (fallback_labels animal_type) animal_type)
              (fun _ => "Error detecting breed"))).
    { unfold detect_breed. rewrite Hlabels. simpl. now rewrite Hfb. }
    repeat split; auto.
    intros image top others' Himg Hres. rewrite Hrun.
    unfold run_breed_model. rewrite Himg. simpl. now rewrite Hres.
  - intros df Hsel Hkey Hrows.
    assert (Hlabels : candidate_labels cow_breeds buff_breeds animal_type = Ok []).
    { rewrite (candidate_labels_some _ _ Hsel). unfold get_column.
      destruct (index_of_in _ _ Hkey) as [j ->]. now rewrite Hrows. }
    split; [exact Hlabels|]. unfold detect_breed. now rewrite Hlabels.
Qed.

End Detection.

Section DetectionFacts.

Context {Path Image : Type}.
Variable Image_open : Path -> result Image.
Variables cow_breeds buff_breeds : option DataFrame.

Lemma detect_breed_returns (breed_classifier : option (Pipeline Image))
    (image_path : Path) (animal_type : string) :
  keyed cow_breeds -> keyed buff_breeds ->
  exists name,
    detect_breed Image_open breed_classifier cow_breeds buff_breeds
      image_path animal_type = Ok name.
Proof.
  intros Hc Hb. unfold detect_breed.
  destruct breed_classifier as [clf|]; [|eauto].
  destruct (candidate_labels_keyed cow_breeds buff_breeds animal_type Hc Hb)
    as [[|first others] ->]; simpl; eauto.
Qed.

Lemma detect_breed_on_error (clf : Pipeline Image) (image_path : Path)
    (animal_type : string) (first : Value) (others : list Value) (e : Exception) :
  candidate_labels cow_breeds buff_breeds animal_type = Ok (first :: others) ->
  (Image_open image_path = Raise e
   \/ exists image, Image_open image_path = Ok image
                    /\ clf image (first :: others) = Raise e) ->
  detect_breed Image_open (Some clf) cow_breeds buff_breeds image_path animal_type
  = Ok "Error detecting breed".
Proof.
  intros H Hraise. unfold detect_breed. rewrite H. simpl.
  unfold run_breed_model.
  destruct Hraise as [-> | (image & -> & Hclf)]; simpl; [|rewrite Hclf]; reflexivity.
Qed.

End DetectionFacts.

(** ** The progress stream *)

Section Stream.

Context {Path Image : Type}.
Variable Image_open : Path -> result Image.
Variables cow_breeds buff_breeds : option DataFrame.

(** Seven calls of [next] run the generator to its end. *)
Lemma drain_detected (breed_classifier : option (Pipeline Image)) (fuel : nat)
    (animal : string) (image_path : Path) (detected_breed : string) :
  detect_breed Image_open breed_classifier cow_breeds buff_breeds image_path animal
  = Ok detected_breed ->
  (7 <= fuel)%nat ->
  get_insights_stream Image_open breed_classifier cow_breeds buff_breeds
    fuel animal image_path
  = (updates cow_breeds buff_breeds detected_breed animal, Exhausted).
Proof.
  intros Hdetect Hfuel.
  do 7 (destruct fuel as [|fuel]; [lia|]).
  unfold get_insights_stream, updates. simpl. rewrite Hdetect. reflexivity.
Qed.

(** If breed detection raises, the generator dies after its second update. *)
Lemma drain_raised (breed_classifier : option (Pipeline Image)) (fuel : nat)
    (animal : string) (image_path : Path) (e : Exception) :
  detect_breed Image_open breed_classifier cow_breeds buff_breeds image_path animal
  = Raise e ->
  (3 <= fuel)%nat ->
  exists first second,
    get_insights_stream Image_open breed_classifier cow_breeds buff_breeds
      fuel animal image_path
    = ([first; second], Failed e).
Proof.
  intros Hdetect Hfuel.
  do 3 (destruct fuel as [|fuel]; [lia|]).
  unfold get_insights_stream. simpl. rewrite Hdetect. eauto.
Qed.

(** C1, as the code has it: on tables keyed by breed name, for every species
    tag and image, the generator yields exactly 6 updates and then ends; their
    progress values are 5, 30, 50, 75, 90, 100, strictly increasing; exactly
    one update, the last, carries the data field, and it holds what
    [get_breed_insights] returned for the detected breed. *)
Theorem stream_six_updates (breed_classifier : option (Pipeline Image))
    (fuel : nat) (animal : string) (image_path : Path) :
  keyed cow_breeds -> keyed buff_breeds ->
  (7 <= fuel)%nat ->
  exists detected_breed events,
    detect_breed Image_open breed_classifier cow_breeds buff_breeds image_path animal
    = Ok detected_breed
    /\ get_insights_stream Image_open breed_classifier cow_breeds buff_breeds
         fuel animal image_path = (events, Exhausted)
    /\ events = updates cow_breeds buff_breeds detected_breed animal
    /\ List.length events = 6%nat
    /\ map progress events = [5; 30; 50; 75; 90; 100]
    /\ StronglySorted Z.lt (map progress events)
    /\ map carries_data events = [false; false; false; false; false; true].
Proof.
  intros Hc Hb Hfuel.
  destruct (detect_breed_returns Image_open cow_breeds buff_breeds
              breed_classifier image_path animal Hc Hb) as [name Hname].
  exists name, (updates cow_breeds buff_breeds name animal).
  repeat split; auto using drain_detected.
  simpl. repeat constructor; lia.
Qed.

(** C3: if the breed model call raises (or opening the image for it does),
    the generator still runs through all of its updates and ends without an
    exception; the data of the final
    update has breed_type "Error detecting breed", farmers_percent "--" and
    "Data not available" in every other field, no row of the table being
    named "Error detecting breed". *)
Theorem stream_after_model_error (clf : Pipeline Image) (fuel : nat)
    (animal : string) (image_path : Path)
    (first : Value) (others : list Value) (e : Exception) :
  candidate_labels cow_breeds buff_breeds animal = Ok (first :: others) ->
  (Image_open image_path = Raise e
   \/ exists image, Image_open image_path = Ok image
                    /\ clf image (first :: others) = Raise e) ->
  no_row_named "Error detecting breed"
    (selected_table cow_breeds buff_breeds animal) ->
  (7 <= fuel)%nat ->
  exists events final,
    get_insights_stream Image_open (Some clf) cow_breeds buff_breeds
      fuel animal image_path = ((events ++ [final])%list, Exhausted)
    /\ map progress events = [5; 30; 50; 75; 90]
    /\ progress final = 100
    /\ data final = Some (not_available "Error detecting breed")
    /\ placeholder_record "Data not available" "Error detecting breed"
         (not_available "Error detecting breed").
Proof.
  intros Hlabels Hraise Habsent Hfuel.
  pose proof (detect_breed_on_error Image_open cow_breeds buff_breeds
                clf image_path animal first others e Hlabels Hraise) as Hdetect.
  exists (progress_updates "Error detecting breed"),
    (final_update (not_available "Error detecting breed")).
  pose proof (drain_detected _ _ _ _ _ Hdetect Hfuel) as Hrun.
  unfold updates, get_breed_insights in Hrun.
  rewrite (lookup_insights_absent cow_breeds buff_breeds _ _ Habsent) in Hrun.
  split; [exact Hrun|].
  repeat split; try reflexivity; apply not_available_placeholder.
Qed.

End Stream.

(** ** The species classifier *)

Section Classifier.

Context {Path Image : Type}.
Variable Image_open : Path -> result Image.

(** C8: the classifier built by [__init__] invokes the model with the labels
    ["cow", "buffalo"]; when the model answers, the method returns the label
    of the first result and stores its score in [last_confidence], and in a
    ranked answer the first result is a top-scoring one; when the model
    answers with no result, the method returns "Unknown". *)
Theorem image_classification_top (clf : Pipeline Image) (image_path : Path)
    (image : Image) :
  Image_open image_path = Ok image ->
  exists self,
    init (Ok clf) = Ok self
    /\ labels self = [VStr "cow"; VStr "buffalo"]
    /\ (forall top others,
          clf image [VStr "cow"; VStr "buffalo"] = Ok (top :: others) ->
          fst (image_classification Image_open self image_path) = Ok (label top)
          /\ last_confidence (snd (image_classification Image_open self image_path))
             = score top
          /\ (ranked (top :: others) ->
              Forall (fun p => PrimFloat.leb (score p) (score top) = true) others))
    /\ (clf image [VStr "cow"; VStr "buffalo"] = Ok [] ->
        fst (image_classification Image_open self image_path) = Ok "Unknown").
Proof.
  intros Himg. eexists. split; [reflexivity|]. split; [reflexivity|].
  unfold image_classification. simpl. rewrite Himg. split.
  - intros top others Hres. rewrite Hres. simpl. repeat split.
    intros Hranked. now inversion Hranked.
  - intros Hres. now rewrite Hres.
Qed.

(** C9: when the model returns an empty list, [image_classification] returns
    "Unknown" and leaves the object, so [last_confidence], as it was; the
    field starts at 0.0; a call changes the object only when the model
    returned a result, whose score it then stores; so after a classified
    image, an image for which the model returns nothing yields "Unknown" with
    the confidence of the earlier image. *)
Theorem image_classification_unknown (self : ImageClassification Image)
    (image_path : Path) :
  (forall image,
     Image_open image_path = Ok image ->
     classifier self image (labels self) = Ok [] ->
     image_classification Image_open self image_path = (Ok "Unknown", self))
  /\ (forall (clf : Pipeline Image) self0,
        init (Ok clf) = Ok self0 -> last_confidence self0 = 0%float)
  /\ (snd (image_classification Image_open self image_path) = self
      \/ exists image top others,
           Image_open image_path = Ok image
           /\ classifier self image (labels self) = Ok (top :: others)
           /\ last_confidence (snd (image_classification Image_open self image_path))
              = score top)
  /\ (forall earlier_path earlier_image top others image,
        Image_open earlier_path = Ok earlier_image ->
        classifier self earlier_image (labels self) = Ok (top :: others) ->
        Image_open image_path = Ok image ->
        classifier self image (labels self) = Ok [] ->
        let after := snd (image_classification Image_open self earlier_path) in
        fst (image_classification Image_open after image_path) = Ok "Unknown"
        /\ last_confidence (snd (image_classification Image_open after image_path))
           = score top).
Proof.
  split; [|split; [|split]].
  - intros image Himg Hres. unfold image_classification. now rewrite Himg, Hres.
  - intros clf self0 H. now injection H as <-.
  - unfold image_classification.
    destruct (Image_open image_path) as [image|] eqn:Himg; [|now left].
    destruct (classifier self image (labels self)) as [[|top others]|] eqn:Hres;
      try now left.
    right. exists image, top, others. auto.
  - intros earlier_path earlier_image top others image Hopen1 Hres1 Hopen2 Hres2.
    unfold image_classification. rewrite Hopen1, Hres1. simpl.
    rewrite Hopen2, Hres2. split; reflexivity.
Qed.

End Classifier.

(** * Concrete runs *)

Lemma keyed_samples : keyed (Some sample_cow_breeds) /\ keyed (Some sample_buff_breeds).
Proof. split; intros df H; injection H as <-; simpl; auto. Qed.

Lemma sample_cows_have_no (breed_type : string) :
  breed_type <> "Holstein-Friesian" -> breed_type <> "Jersey" ->
  breed_type <> "Guernsey" ->
  no_row_named breed_type (Some sample_cow_breeds).
Proof.
  intros H1 H2 H3 df H. injection H as <-.
  eexists. split; [reflexivity|].
  repeat constructor; intros E; injection E; congruence.
Qed.

(** C1: on the built-in tables, with no model loaded, the generator yields six
    updates, not five: the update of progress 90 is one of them. *)
Lemma stream_not_five_updates :
  let run := get_insights_stream Run.open_any None
               (Some sample_cow_breeds) (Some sample_buff_breeds) 10 "cow" tt in
  snd run = Exhausted
  /\ map progress (fst run) = [5; 30; 50; 75; 90; 100]
  /\ List.length (fst run) <> 5%nat
  /\ map progress (fst run) <> [5; 30; 50; 75; 100].
Proof. vm_compute. repeat split; discriminate. Qed.

Lemma stream_six_updates_witness :
  exists detected_breed events,
    detect_breed Run.open_any None (Some sample_cow_breeds) (Some sample_buff_breeds)
      tt "cow" = Ok detected_breed
    /\ get_insights_stream Run.open_any None
         (Some sample_cow_breeds) (Some sample_buff_breeds) 7 "cow" tt
       = (events, Exhausted)
    /\ events = updates (Some sample_cow_breeds) (Some sample_buff_breeds)
                  detected_breed "cow"
    /\ List.length events = 6%nat
    /\ map progress events = [5; 30; 50; 75; 90; 100]
    /\ StronglySorted Z.lt (map progress events)
    /\ map carries_data events = [false; false; false; false; false; true].
Proof.
  apply (stream_six_updates Run.open_any (Some sample_cow_breeds)
           (Some sample_buff_breeds) None 7 "cow" tt);
    [apply keyed_samples | apply keyed_samples | lia].
Defined.

(** C2: with a cow table that has its header and no row, [detect_breed]
    returns "Unknown Cow"; the candidate list is empty, not the hard-coded
    list, on which the model would have answered "Jersey". *)
Lemma empty_table_skips_model :
  rows Run.no_cows = []
  /\ candidate_labels (Some Run.no_cows) None "cow" = Ok []
  /\ candidate_labels (Some Run.no_cows) None "cow" <> Ok (fallback_labels "cow")
  /\ detect_breed Run.open_any (Some Run.jersey_model) (Some Run.no_cows) None tt "cow"
     = Ok "Unknown Cow"
  /\ run_breed_model Run.open_any Run.jersey_model tt (fallback_labels "cow") "cow"
     = Ok "Jersey".
Proof. vm_compute. repeat split; discriminate. Qed.

Lemma detect_breed_fallback_witness :
  candidate_labels None None "cow" = Ok (fallback_labels "cow")
  /\ detect_breed Run.open_any (Some Run.jersey_model) None None tt "cow" = Ok "Jersey"
  /\ detect_breed Run.open_any (Some Run.jersey_model) (Some Run.no_cows) None tt "cow"
     = Ok ("Unknown " ++ Py.capitalize "cow").
Proof.
  destruct (detect_breed_fallback Run.open_any None None Run.jersey_model tt "cow")
    as [Hnone _].
  destruct (detect_breed_fallback Run.open_any (Some Run.no_cows) None
              Run.jersey_model tt "cow") as [_ Hempty].
  destruct (Hnone eq_refl) as (Hlabels & _ & Htop).
  destruct (Hempty Run.no_cows eq_refl (or_introl eq_refl) eq_refl) as [_ Hunknown].
  split; [exact Hlabels|].
  split; [exact (Htop tt (mkPrediction "Jersey" 0.9) [] eq_refl eq_refl) | exact Hunknown].
Defined.

(** C3 on the built-in tables, with a model that fails. *)
Lemma stream_after_model_error_witness :
  exists events final,
    get_insights_stream Run.open_any (Some Run.failing_model)
      (Some sample_cow_breeds) (Some sample_buff_breeds) 7 "cow" tt
    = ((events ++ [final])%list, Exhausted)
    /\ map progress events = [5; 30; 50; 75; 90]
    /\ progress final = 100
    /\ data final = Some (not_available "Error detecting breed")
    /\ placeholder_record "Data not available" "Error detecting breed"
         (not_available "Error detecting breed").
Proof.
  apply (stream_after_model_error Run.open_any (Some sample_cow_breeds)
           (Some sample_buff_breeds) Run.failing_model 7 "cow" tt
           (VStr "Holstein-Friesian") [VStr "Jersey"; VStr "Guernsey"]
           (RuntimeError "inference failed"));
    [reflexivity | | | lia].
  - right. exists tt. split; reflexivity.
  - apply sample_cows_have_no; discriminate.
Defined.

(** C4: the code at an input where it breaks what the claim says.  The row
    of "Gir" in an [int64] column holds a monthly income of
    768,614,336,404,564,651 rupees; the record shows that income as it is, and
    an annual income that is negative, not 12 times it: the product of lines
    86 and 101 left the range of [int64]. *)
Lemma annual_income_wraps :
  let d := get_breed_insights (Some Run.rich_cows) None "Gir" "cow" in
  dict_get d "monthly_income" = Some "₹768,614,336,404,564,651"
  /\ inr_value "₹768,614,336,404,564,651" = Some 768614336404564651
  /\ dict_get d "annual_income" = Some "₹-9,223,372,036,854,775,804"
  /\ inr_value "₹-9,223,372,036,854,775,804" = Some (-9223372036854775804)
  /\ -9223372036854775804 <> 12 * 768614336404564651.
Proof. vm_compute. repeat split; discriminate. Qed.

Lemma income_formatting_witness :
  dict_get (get_breed_insights (Some sample_cow_breeds) (Some sample_buff_breeds)
              "Jersey" "cow") "annual_income" = Some (format_inr (12 * 7500))
  /\ dict_get (get_breed_insights (Some sample_cow_breeds) (Some sample_buff_breeds)
                 "Jersey" "cow") "monthly_income" = Some (format_inr 7500)
  /\ inr_value (format_inr (12 * 7500)) = Some (12 * 7500)
  /\ inr_value (format_inr 7500) = Some 7500.
Proof.
  apply (income_formatting (Some sample_cow_breeds) (Some sample_buff_breeds)
           "Jersey" "cow" sample_cow_breeds
           [ ("Breed_Type", VStr "Jersey"); ("Cost_Of_Cow_INR", VInt 45000);
             ("Monthly_Income_INR", VInt 7500); ("Popular_Areas", VStr "Global");
             ("Milk_Per_Day_Litres", VInt 15) ]
           45000 7500);
    try reflexivity.
  unfold Py.int64_range. lia.
Defined.

Example buffalo_income :
  get_breed_insights (Some sample_cow_breeds) (Some sample_buff_breeds) "Murrah" "Buffalo"
  = [ ("breed_type", "Murrah"); ("starting_expenditure", "₹60,000");
      ("annual_income", "₹108,000"); ("farmers_percent", "--");
      ("popular_areas", "Haryana, Punjab"); ("milk_per_day", "18 Liters");
      ("monthly_income", "₹9,000") ].
Proof. reflexivity. Qed.

(** C5 on the built-in tables: "Zebu" is no breed of the cow table. *)
Lemma get_breed_insights_absent_witness :
  get_breed_insights (Some sample_cow_breeds) (Some sample_buff_breeds) "Zebu" "cow"
  = not_available "Zebu"
  /\ placeholder_record "Data not available" "Zebu"
       (get_breed_insights (Some sample_cow_breeds) (Some sample_buff_breeds)
          "Zebu" "cow").
Proof.
  apply (get_breed_insights_absent (Some sample_cow_breeds) (Some sample_buff_breeds)
           "Zebu" "cow").
  apply sample_cows_have_no; discriminate.
Defined.

(** The comparison is exact: "jersey" is not "Jersey". *)
Example lookup_is_case_sensitive :
  get_breed_insights (Some sample_cow_breeds) (Some sample_buff_breeds) "jersey" "cow"
  = not_available "jersey".
Proof. reflexivity. Qed.

(** X19 on the built-in tables, and on a cow table with no row. *)
Lemma detect_breed_degraded_paths_witness :
  detect_breed Run.open_any None (Some sample_cow_breeds) (Some sample_buff_breeds)
    tt "buffalo" = Ok ("Default " ++ Py.capitalize "buffalo")
  /\ detect_breed Run.open_any (Some Run.jersey_model) (Some Run.no_cows) None tt "cow"
     = Ok ("Unknown " ++ Py.capitalize "cow")
  /\ detect_breed Run.open_any (Some Run.failing_model)
       (Some sample_cow_breeds) (Some sample_buff_breeds) tt "buffalo"
     = Ok "Error detecting breed"
  /\ detect_breed Run.open_any (Some Run.silent_model)
       (Some sample_cow_breeds) (Some sample_buff_breeds) tt "buffalo"
     = Ok ("Uncertain " ++ Py.capitalize "buffalo")
  /\ exists name,
       detect_breed Run.open_any (Some Run.jersey_model)
         (Some sample_cow_breeds) (Some sample_buff_breeds) tt "buffalo" = Ok name.
Proof.
  destruct (detect_breed_degraded_paths Run.open_any
              (Some sample_cow_breeds) (Some sample_buff_breeds) tt "buffalo")
    as (Hdefault & _ & Herror & Huncertain & Htotal).
  destruct (detect_breed_degraded_paths Run.open_any (Some Run.no_cows) None tt "cow")
    as (_ & Hunknown & _).
  split; [exact (Hdefault (OSError "model files not found"))|].
  split; [exact (Hunknown Run.jersey_model eq_refl)|].
  split.
  { apply (Herror Run.failing_model (VStr "Murrah")
             [VStr "Nili-Ravi"; VStr "Jaffarabadi"] (RuntimeError "inference failed"));
      [reflexivity|].
    right. exists tt. split; reflexivity. }
  split.
  { apply (Huncertain Run.silent_model (VStr "Murrah")
             [VStr "Nili-Ravi"; VStr "Jaffarabadi"] tt); reflexivity. }
  apply Htotal; apply keyed_samples.
Defined.

(** C6: the code at an input where it breaks what the claim says.  The cow
    file has its breed names under the header "Breed"; with a model loaded,
    the column access of line 49 raises KeyError before the [try] of line 59
    is entered, and [detect_breed] raises.  [get_breed_insights] makes the
    same access inside its [try] and returns the "Error fetching data"
    record. *)
Theorem detect_breed_raises_on_unkeyed_table :
  columns Run.unkeyed_cows = ["Breed"; "Cost_Of_Cow_INR"; "Monthly_Income_INR"]
  /\ detect_breed Run.open_any (Some Run.jersey_model)
       (Some Run.unkeyed_cows) (Some sample_buff_breeds) tt "cow"
     = Raise (KeyError "Breed_Type")
  /\ get_breed_insights (Some Run.unkeyed_cows) (Some sample_buff_breeds) "Gir" "cow"
     = error_fetching "Gir".
Proof. repeat split. Qed.

Example placeholders_of_a_cow :
  detect_breed Run.open_any None (Some sample_cow_breeds) None tt "cow"
  = Ok "Default Cow"
  /\ detect_breed Run.open_any (Some Run.jersey_model) (Some Run.no_cows) None tt "COW"
     = Ok "Unknown Cow"
  /\ detect_breed Run.open_any (Some Run.silent_model) (Some sample_cow_breeds) None
       tt "cow" = Ok "Uncertain Cow".
Proof. repeat split. Qed.

(** Outside the data model: on a table with no [Breed_Type] column the lookup
    of line 49 raises before the [try], and the generator dies with it. *)
Example detect_breed_unkeyed :
  detect_breed Run.open_any (Some Run.jersey_model) (Some Run.unkeyed_cows) None tt "cow"
  = Raise (KeyError "Breed_Type")
  /\ snd (get_insights_stream Run.open_any (Some Run.jersey_model)
            (Some Run.unkeyed_cows) None 7 "cow" tt)
     = Failed (KeyError "Breed_Type").
Proof. split; reflexivity. Qed.

(** C7 on a cow table with a blank cost cell: [int] of NaN raises. *)
Lemma get_breed_insights_error_witness :
  lookup_insights (Some Run.blank_cost_cows) None "Gir" "cow"
  = Raise (ValueError "cannot convert float NaN to integer")
  /\ get_breed_insights (Some Run.blank_cost_cows) None "Gir" "cow"
     = error_fetching "Gir"
  /\ placeholder_record "Error fetching data" "Gir"
       (get_breed_insights (Some Run.blank_cost_cows) None "Gir" "cow").
Proof.
  split; [reflexivity|].
  apply (get_breed_insights_error (Some Run.blank_cost_cows) None "Gir" "cow"
           (ValueError "cannot convert float NaN to integer")).
  reflexivity.
Defined.

(** Other ways into the handler: a table with no [Breed_Type] column, and a
    cow table with no cost column. *)
Example get_breed_insights_key_errors :
  get_breed_insights (Some Run.unkeyed_cows) None "Gir" "cow" = error_fetching "Gir"
  /\ get_breed_insights
       (Some (from_columns [("Breed_Type", [VStr "Gir"]);
                            ("Monthly_Income_INR", [VInt 6000])]))
       None "Gir" "cow" = error_fetching "Gir".
Proof. split; reflexivity. Qed.

(** C8 on the example of the specification. *)
Lemma image_classification_top_witness :
  exists self,
    init (Ok Run.cow_model) = Ok self
    /\ fst (image_classification Run.open_any self tt) = Ok "cow"
    /\ last_confidence (snd (image_classification Run.open_any self tt)) = 0.9%float.
Proof.
  destruct (image_classification_top Run.open_any Run.cow_model tt tt eq_refl)
    as (self & Hinit & _ & Htop & _).
  exists self. split; [exact Hinit|].
  destruct (Htop (mkPrediction "cow" 0.9) [mkPrediction "buffalo" 0.1] eq_refl)
    as (Hlabel & Hscore & _).
  split; [exact Hlabel | exact Hscore].
Defined.

Example cow_model_is_ranked :
  ranked [mkPrediction "cow" 0.9; mkPrediction "buffalo" 0.1].
Proof. repeat constructor. Qed.

(** C9 with a model that returns nothing: the fresh object keeps 0.0. *)
Lemma image_classification_unknown_witness :
  image_classification Run.open_any
    (mkImageClassification Run.silent_model species_labels 0%float) tt
  = (Ok "Unknown", mkImageClassification Run.silent_model species_labels 0%float).
Proof.
  destruct (image_classification_unknown Run.open_any
              (mkImageClassification Run.silent_model species_labels 0%float) tt)
    as (Hunknown & _).
  apply (Hunknown tt); reflexivity.
Defined.

(** The confidence after "Unknown" is the one of the image before. *)
Example stale_confidence :
  let first_only : Pipeline bool :=
    fun image _ => if image then Ok [mkPrediction "cow" 0.9] else Ok [] in
  let self := mkImageClassification first_only species_labels 0%float in
  let after := snd (image_classification (fun p : bool => Ok p) self true) in
  image_classification (fun p : bool => Ok p) after false
  = (Ok "Unknown", mkImageClassification first_only species_labels 0.9%float).
Proof. reflexivity. Qed.

(** C10 for a species the module has no table of. *)
Lemma get_breed_insights_total_witness :
  get_breed_insights (Some sample_cow_breeds) (Some sample_buff_breeds) "Jersey" "horse"
  = not_available "Jersey".
Proof.
  destruct (get_breed_insights_total (Some sample_cow_breeds) (Some sample_buff_breeds)
              "Jersey" "horse") as (_ & _ & Hother).
  apply Hother; discriminate.
Defined.

(** ** Text and numbers *)

Example lower_Cow : Py.lower "Cow" = "cow".
Proof. reflexivity. Qed.

Example capitalize_buffalo : Py.capitalize "bUFFALO" = "Buffalo".
Proof. reflexivity. Qed.

Example format_thousands_96000 : Py.format_thousands 96000 = "96,000".
Proof. reflexivity. Qed.

Example format_thousands_negative : Py.format_thousands (-1234567) = "-1,234,567".
Proof. reflexivity. Qed.

Example format_thousands_small :
  Py.format_thousands 0 = "0" /\ Py.format_thousands 999 = "999".
Proof. split; reflexivity. Qed.

Example int_of_str_underscore : Py.int_of_str " +8_000 " = Ok 8000.
Proof. reflexivity. Qed.

Example int_of_str_comma : exists e, Py.int_of_str "8,000" = Raise e.
Proof. eexists; reflexivity. Qed.

Example well_grouped_rejects :
  Py.well_grouped "1234" = false /\ Py.well_grouped "12,34" = false
  /\ Py.well_grouped ",123" = false /\ Py.well_grouped "1,234" = true.
Proof. repeat split. Qed.

(** A text cell in the income column is repeated, not multiplied. *)
Example text_income_is_repeated :
  value_int (value_mul (VStr "7") 12) = Ok 777777777777.
Proof. reflexivity. Qed.

(** * Further properties *)

(** ** The resolver, row by row *)

(** In a typed frame an integer cell of the row found is an [int64] value. *)
Lemma typed_cell_range (df : DataFrame) (breed_type : string) (record : Series)
    (key : string) (m : Z) :
  typed_frame df ->
  first_match df breed_type = Ok (Some record) ->
  series_find record key = Some (VInt m) ->
  Py.int64_range m.
Proof.
  intros Htyped Hfm Hcell.
  destruct (first_match_keyed _ _ _ Hfm) as [j0 Hj0].
  rewrite (first_match_filter df breed_type j0 Hj0) in Hfm.
  destruct (filter _ (rows df)) as [|r rs] eqn:Hf; [discriminate|].
  injection Hfm as <-.
  assert (Hin : In r (rows df)).
  { assert (H : In r (filter (fun r => value_eq_str (nth j0 r VNaN) breed_type)
                        (rows df))) by (rewrite Hf; now left).
    now apply filter_In in H. }
  rewrite series_find_row in Hcell.
  destruct (index_of key (columns df)) as [j|]; [|discriminate].
  simpl in Hcell. injection Hcell as Hcell.
  destruct (Htyped j) as [Hint | Htext].
  - rewrite Forall_forall in Hint.
    destruct (Hint (nth j r VNaN)) as (n & Hn & Hrange).
    + apply in_map_iff. eauto.
    + rewrite Hcell in Hn. now injection Hn as ->.
  - rewrite Forall_forall in Htext.
    exfalso. apply (Htext (nth j r VNaN)) with (n := m); [|exact Hcell].
    apply in_map_iff. eauto.
Qed.

Section ResolverRows.

Variables cow_breeds buff_breeds : option DataFrame.

(** The two branches of [get_breed_insights] are one lookup in the selected
    table. *)
Lemma lookup_insights_selected (breed_type animal_type : string) :
  lookup_insights cow_breeds buff_breeds breed_type animal_type
  = match selected_table cow_breeds buff_breeds animal_type with
    | Some df =>
        hit <- first_match df breed_type ;;
        match hit with
        | Some record => record_insights animal_type record
        | None => Ok (not_available breed_type)
        end
    | None => Ok (not_available breed_type)
    end.
Proof.
  unfold lookup_insights, selected_table, record_insights, bind.
  destruct (String.eqb_spec (Py.lower animal_type) "cow") as [Hcow|Hcow].
  - destruct cow_breeds as [df|].
    + destruct (first_match df breed_type) as [[record|]|]; try reflexivity.
      destruct (cow_insights record); reflexivity.
    + rewrite Hcow. reflexivity.
  - destruct (String.eqb (Py.lower animal_type) "buffalo").
    + destruct buff_breeds as [df|].
      * destruct cow_breeds;
          (destruct (first_match df breed_type) as [[record|]|]; try reflexivity;
           destruct (buffalo_insights record); reflexivity).
      * destruct cow_breeds; reflexivity.
    + destruct cow_breeds; reflexivity.
Qed.

Lemma get_breed_insights_found (breed_type animal_type : string)
    (df : DataFrame) (record : Series) :
  selected_table cow_breeds buff_breeds animal_type = Some df ->
  first_match df breed_type = Ok (Some record) ->
  get_breed_insights cow_breeds buff_breeds breed_type animal_type
  = try_except (record_insights animal_type record)
      (fun _ => error_fetching breed_type).
Proof.
  intros Hsel Hfm. unfold get_breed_insights.
  rewrite lookup_insights_selected, Hsel. unfold bind. now rewrite Hfm.
Qed.

Lemma record_insights_fields (animal_type : string) (record : Series) (d : Dict) :
  record_insights animal_type record = Ok d ->
  exists name cost,
    series_find record "Breed_Type" = Some name
    /\ dict_get d "breed_type" = Some (value_str name)
    /\ dict_get d "starting_expenditure" = Some (format_inr cost).
Proof.
  unfold record_insights, cow_insights, buffalo_insights, getitem, bind.
  intros H.
  destruct (String.eqb (Py.lower animal_type) "cow");
    destruct (series_find record "Breed_Type") as [name|]; try discriminate H;
    case_steps H; injection H as <-;
    do 2 eexists; repeat split; reflexivity.
Qed.

Lemma breed_type_field (breed_type animal_type : string) :
  dict_get (get_breed_insights cow_breeds buff_breeds breed_type animal_type)
    "breed_type" = Some breed_type.
Proof.
  unfold get_breed_insights. rewrite lookup_insights_selected.
  destruct (selected_table cow_breeds buff_breeds animal_type) as [df|];
    [|reflexivity].
  unfold bind.
  destruct (first_match df breed_type) as [[record|]|] eqn:Hfm; try reflexivity.
  destruct (record_insights animal_type record) as [d|e] eqn:Hrec; [|reflexivity].
  destruct (record_insights_fields _ _ _ Hrec) as (name & cost & Hname & Hd & _).
  rewrite (first_match_found _ _ _ Hfm) in Hname. injection Hname as <-.
  exact Hd.
Qed.

Lemma insight_keys_field (breed_type animal_type : string) :
  map fst (get_breed_insights cow_breeds buff_breeds breed_type animal_type)
  = insight_keys.
Proof.
  unfold get_breed_insights, try_except.
  destruct (lookup_insights cow_breeds buff_breeds breed_type animal_type)
    as [d|e] eqn:Hbody; [|reflexivity].
  now destruct (lookup_insights_shape _ _ _ _ _ Hbody).
Qed.

(** X1: in every branch the record echoes the breed name it was given: the
    row found is a row of exactly that name, and the two placeholder records
    copy the argument. *)
Theorem get_breed_insights_echoes (breed_type animal_type : string) :
  dict_get (get_breed_insights cow_breeds buff_breeds breed_type animal_type)
    "breed_type" = Some breed_type.
Proof. apply breed_type_field. Qed.

(** X3: on a typed frame (each column [int64] or text), the record of a row
    found whose cost and monthly income are integers [c] and [m]: these are
    [int64] values; the record shows the cost and the income with thousands
    separators, the annual income as the [int64] product of [m] and 12, the
    region and the milk yield as they are in the row ("N/A" for a column the
    table lacks), the yield followed by " Liters". *)
Theorem found_record (breed_type animal_type : string) (df : DataFrame)
    (record : Series) (c m : Z) :
  typed_frame df ->
  selected_table cow_breeds buff_breeds animal_type = Some df ->
  first_match df breed_type = Ok (Some record) ->
  series_find record (cost_column animal_type) = Some (VInt c) ->
  series_find record (income_column animal_type) = Some (VInt m) ->
  Py.int64_range c /\ Py.int64_range m
  /\ get_breed_insights cow_breeds buff_breeds breed_type animal_type
  = [ ("breed_type", breed_type);
      ("starting_expenditure", format_inr c);
      ("annual_income", format_inr (Py.wrap_int64 (m * 12)));
      ("farmers_percent", "--");
      ("popular_areas", value_str (get record "Popular_Areas" (VStr "N/A")));
      ("milk_per_day",
       value_str (get record (milk_column animal_type) (VStr "N/A")) ++ " Liters");
      ("monthly_income", format_inr m) ].
Proof.
  intros Htyped Hsel Hfm Hcost Hinc.
  split; [exact (typed_cell_range _ _ _ _ _ Htyped Hfm Hcost)|].
  split; [exact (typed_cell_range _ _ _ _ _ Htyped Hfm Hinc)|].
  rewrite (get_breed_insights_found _ _ _ _ Hsel Hfm).
  pose proof (first_match_found _ _ _ Hfm) as Hname.
  unfold record_insights, cost_column, income_column, milk_column in *.
  destruct (String.eqb (Py.lower animal_type) "cow").
  - unfold cow_insights, bind.
    rewrite (getitem_find _ _ _ Hname), (getitem_find _ _ _ Hcost).
    rewrite (get_find _ _ _ (VInt 0) Hinc). reflexivity.
  - unfold buffalo_insights, bind.
    rewrite (getitem_find _ _ _ Hname).
    rewrite (get_find _ _ _ (VInt 0) Hcost), (get_find _ _ _ (VInt 0) Hinc).
    reflexivity.
Qed.

(** X4: a cow row of a table with no [Cost_Of_Cow_INR] column gives the
    "Error fetching data" record: the cost of a cow is read by [record[...]],
    which raises. *)
Theorem cow_without_cost_column (breed_type animal_type : string) (df : DataFrame)
    (record : Series) :
  Py.lower animal_type = "cow" ->
  cow_breeds = Some df ->
  first_match df breed_type = Ok (Some record) ->
  series_find record "Cost_Of_Cow_INR" = None ->
  get_breed_insights cow_breeds buff_breeds breed_type animal_type
  = error_fetching breed_type.
Proof.
  intros Hcow Hdf Hfm Hcost.
  assert (Hsel : selected_table cow_breeds buff_breeds animal_type = Some df).
  { unfold selected_table. now rewrite Hcow, Hdf. }
  rewrite (get_breed_insights_found _ _ _ _ Hsel Hfm).
  unfold record_insights. rewrite Hcow. simpl String.eqb. cbv iota.
  unfold cow_insights, bind.
  rewrite (getitem_find _ _ _ (first_match_found _ _ _ Hfm)).
  unfold getitem. rewrite Hcost. reflexivity.
Qed.

(** X5: a buffalo row of a table with neither a cost nor an income column
    gives no error: the three amounts read 0, by the defaults of
    [record.get]. *)
Theorem buffalo_without_amount_columns (breed_type animal_type : string)
    (df : DataFrame) (record : Series) :
  Py.lower animal_type = "buffalo" ->
  buff_breeds = Some df ->
  first_match df breed_type = Ok (Some record) ->
  series_find record "Cost_per_Buffalo_INR" = None ->
  series_find record "Monthly_Income_per_Buffalo_INR" = None ->
  get_breed_insights cow_breeds buff_breeds breed_type animal_type
  = [ ("breed_type", breed_type);
      ("starting_expenditure", "₹0");
      ("annual_income", "₹0");
      ("farmers_percent", "--");
      ("popular_areas", value_str (get record "Popular_Areas" (VStr "N/A")));
      ("milk_per_day",
       value_str (get record "Milk_per_Day_Liters" (VStr "N/A")) ++ " Liters");
      ("monthly_income", "₹0") ].
Proof.
  intros Hbuff Hdf Hfm Hcost Hinc.
  assert (Hsel : selected_table cow_breeds buff_breeds animal_type = Some df).
  { unfold selected_table. now rewrite Hbuff, Hdf. }
  rewrite (get_breed_insights_found _ _ _ _ Hsel Hfm).
  unfold record_insights. rewrite Hbuff. simpl String.eqb. cbv iota.
  unfold buffalo_insights, bind.
  rewrite (getitem_find _ _ _ (first_match_found _ _ _ Hfm)).
  unfold get. rewrite Hcost, Hinc. reflexivity.
Qed.

(** X6: a row found whose monthly income cell is one [int] refuses (a blank
    cell, a text that is no number) gives the "Error fetching data" record,
    whatever its other cells. *)
Theorem income_not_a_number (breed_type animal_type : string) (df : DataFrame)
    (record : Series) (income : Value) (e : Exception) :
  selected_table cow_breeds buff_breeds animal_type = Some df ->
  first_match df breed_type = Ok (Some record) ->
  series_find record (income_column animal_type) = Some income ->
  value_int income = Raise e ->
  get_breed_insights cow_breeds buff_breeds breed_type animal_type
  = error_fetching breed_type.
Proof.
  intros Hsel Hfm Hinc Hint.
  rewrite (get_breed_insights_found _ _ _ _ Hsel Hfm).
  unfold record_insights, income_column in *.
  destruct (String.eqb (Py.lower animal_type) "cow").
  - unfold cow_insights, bind.
    rewrite (get_find _ _ _ (VInt 0) Hinc), Hint.
    destruct (getitem record "Breed_Type"); [|reflexivity].
    destruct (getitem record "Cost_Of_Cow_INR") as [cost|]; [|reflexivity].
    destruct (value_int cost); [|reflexivity].
    destruct (value_int (value_mul income 12)); reflexivity.
  - unfold buffalo_insights, bind.
    rewrite (get_find _ _ _ (VInt 0) Hinc), Hint.
    destruct (getitem record "Breed_Type"); [|reflexivity].
    destruct (value_int (get record "Cost_per_Buffalo_INR" (VInt 0))); [|reflexivity].
    destruct (value_int (value_mul income 12)); reflexivity.
Qed.

(** X7: for a breed name that is in the [Breed_Type] column of the selected
    table, the answer is never the "Data not available" record: it is the
    record made of the row found, or the "Error fetching data" record. *)
Theorem present_breed_is_resolved (breed_type animal_type : string) (df : DataFrame)
    (col : list Value) :
  selected_table cow_breeds buff_breeds animal_type = Some df ->
  get_column df "Breed_Type" = Ok col ->
  In (VStr breed_type) col ->
  get_breed_insights cow_breeds buff_breeds breed_type animal_type
  <> not_available breed_type
  /\ exists record,
       first_match df breed_type = Ok (Some record)
       /\ (get_breed_insights cow_breeds buff_breeds breed_type animal_type
           = error_fetching breed_type
           \/ record_insights animal_type record
              = Ok (get_breed_insights cow_breeds buff_breeds breed_type animal_type)).
Proof.
  intros Hsel Hcol Hin.
  destruct (first_match_present df breed_type col Hcol Hin) as [record Hfm].
  rewrite (get_breed_insights_found _ _ _ _ Hsel Hfm).
  destruct (record_insights animal_type record) as [d|e] eqn:Hrec; simpl.
  - split; [|exists record; auto].
    destruct (record_insights_fields _ _ _ Hrec) as (name & cost & _ & _ & Hexp).
    intros ->. simpl in Hexp. unfold format_inr in Hexp. simpl in Hexp.
    discriminate Hexp.
  - split; [discriminate | exists record; auto].
Qed.

End ResolverRows.

(** X2: the lookup takes the first row, in table order, whose breed cell is
    the name given; rows of the same name further down are not looked at. *)
Theorem first_match_is_first_row (df : DataFrame) (breed_type : string) (j : nat)
    (before after : list (list Value)) (r : list Value) :
  index_of "Breed_Type" (columns df) = Some j ->
  rows df = (before ++ r :: after)%list ->
  Forall (fun r' => nth j r' VNaN <> VStr breed_type) before ->
  nth j r VNaN = VStr breed_type ->
  first_match df breed_type = Ok (Some (row_series (columns df) r)).
Proof.
  intros Hj Hrows Hbefore Hr.
  rewrite (first_match_filter df breed_type j Hj), Hrows.
  rewrite filter_app.
  assert (Hnone : filter (fun r0 => value_eq_str (nth j r0 VNaN) breed_type) before = []).
  { clear Hrows. induction Hbefore as [|r' rs Hr' _ IH]; [reflexivity|].
    simpl. destruct (value_eq_str (nth j r' VNaN) breed_type) eqn:E; [|exact IH].
    apply value_eq_str_true in E. contradiction. }
  rewrite Hnone. simpl.
  assert (Hhit : value_eq_str (nth j r VNaN) breed_type = true)
    by now apply value_eq_str_true.
  now rewrite Hhit.
Qed.

(** ** Breed detection, case by case *)

Lemma index_of_none (name : string) (names : list string) :
  index_of name names = None <-> ~ In name names.
Proof.
  split.
  - intros Hnone Hin. destruct (index_of_in _ _ Hin) as [j Hj]. congruence.
  - intros Hnot. induction names as [|n ns IH]; [reflexivity|].
    simpl. destruct (String.eqb_spec n name) as [->|Hne].
    + exfalso. apply Hnot. now left.
    + rewrite IH; [reflexivity|]. intros Hin. apply Hnot. now right.
Qed.

Section DetectionCases.

Context {Path Image : Type}.
Variable Image_open : Path -> result Image.
Variables cow_breeds buff_breeds : option DataFrame.

Lemma candidate_labels_raise (animal_type : string) (e : Exception) :
  candidate_labels cow_breeds buff_breeds animal_type = Raise e <->
  exists df, selected_table cow_breeds buff_breeds animal_type = Some df
             /\ ~ In "Breed_Type" (columns df) /\ e = KeyError "Breed_Type".
Proof.
  destruct (selected_table cow_breeds buff_breeds animal_type) as [df|] eqn:Hsel.
  - rewrite (candidate_labels_some _ _ _ _ Hsel). unfold get_column.
    destruct (index_of "Breed_Type" (columns df)) as [j|] eqn:Hj; split.
    + discriminate.
    + intros (df' & Hdf & Hnot & _). injection Hdf as <-.
      apply index_of_none in Hnot. congruence.
    + intros H. injection H as <-. exists df. repeat split.
      now apply index_of_none.
    + intros (df' & _ & _ & ->). reflexivity.
  - rewrite (candidate_labels_none _ _ _ Hsel). split; [discriminate|].
    intros (df & Hdf & _). discriminate.
Qed.

Lemma detect_breed_raise (breed_classifier : option (Pipeline Image))
    (image_path : Path) (animal_type : string) (e : Exception) :
  detect_breed Image_open breed_classifier cow_breeds buff_breeds image_path animal_type
  = Raise e <->
  exists clf df,
    breed_classifier = Some clf
    /\ selected_table cow_breeds buff_breeds animal_type = Some df
    /\ ~ In "Breed_Type" (columns df)
    /\ e = KeyError "Breed_Type".
Proof.
  unfold detect_breed. destruct breed_classifier as [clf|].
  - destruct (candidate_labels cow_breeds buff_breeds animal_type)
      as [[|first others]|e'] eqn:Hlabels; simpl; split; try discriminate.
    + intros (_ & df & _ & Hsel & Hnot & ->).
      assert (Hr : candidate_labels cow_breeds buff_breeds animal_type
                   = Raise (KeyError "Breed_Type"))
        by (apply candidate_labels_raise; eauto).
      congruence.
    + intros (_ & df & _ & Hsel & Hnot & ->).
      assert (Hr : candidate_labels cow_breeds buff_breeds animal_type
                   = Raise (KeyError "Breed_Type"))
        by (apply candidate_labels_raise; eauto).
      congruence.
    + intros H. injection H as ->.
      apply candidate_labels_raise in Hlabels as (df & Hsel & Hnot & ->).
      exists clf, df. auto.
    + intros (_ & df & _ & Hsel & Hnot & ->).
      assert (Hr : candidate_labels cow_breeds buff_breeds animal_type
                   = Raise (KeyError "Breed_Type"))
        by (apply candidate_labels_raise; eauto).
      congruence.
  - split; [discriminate|]. intros (clf & _ & H & _). discriminate.
Qed.

(** X8: [detect_breed] raises in one case only: a model is loaded and the
    table of the selected species has no [Breed_Type] column; the exception is
    then the KeyError of that column (line 49 or 51, before the [try]). *)
Theorem detect_breed_raises_iff (breed_classifier : option (Pipeline Image))
    (image_path : Path) (animal_type : string) (e : Exception) :
  detect_breed Image_open breed_classifier cow_breeds buff_breeds image_path animal_type
  = Raise e <->
  exists clf df,
    breed_classifier = Some clf
    /\ selected_table cow_breeds buff_breeds animal_type = Some df
    /\ ~ In "Breed_Type" (columns df)
    /\ e = KeyError "Breed_Type".
Proof. apply detect_breed_raise. Qed.

(** X9: what [detect_breed] returns is one of the four placeholders or the
    label of the first result the model gave for the candidate labels, and
    nothing else. *)
Theorem detect_breed_answers (breed_classifier : option (Pipeline Image))
    (image_path : Path) (animal_type name : string) :
  detect_breed Image_open breed_classifier cow_breeds buff_breeds image_path animal_type
  = Ok name ->
  name = "Default " ++ Py.capitalize animal_type
  \/ name = "Unknown " ++ Py.capitalize animal_type
  \/ name = "Uncertain " ++ Py.capitalize animal_type
  \/ name = "Error detecting breed"
  \/ exists clf candidates image top others,
       breed_classifier = Some clf
       /\ candidate_labels cow_breeds buff_breeds animal_type = Ok candidates
       /\ Image_open image_path = Ok image
       /\ clf image candidates = Ok (top :: others)
       /\ name = label top.
Proof.
  unfold detect_breed. destruct breed_classifier as [clf|].
  - destruct (candidate_labels cow_breeds buff_breeds animal_type)
      as [[|first others]|e'] eqn:Hlabels; simpl; try discriminate.
    + intros H. injection H as <-. auto.
    + unfold run_breed_model, bind.
      destruct (Image_open image_path) as [image|] eqn:Himg; simpl.
      * destruct (clf image (first :: others)) as [[|top rest]|] eqn:Hres; simpl;
          intros H; injection H as <-; auto.
        do 4 right. exists clf, (first :: others), image, top, rest. auto.
      * intros H. injection H as <-. auto.
  - intros H. injection H as <-. auto.
Qed.

End DetectionCases.

(** ** The generator, update by update *)

Section StreamSteps.

Context {Path Image : Type}.
Variable Image_open : Path -> result Image.
Variables cow_breeds buff_breeds : option DataFrame.

(** X10: with a model loaded and a table of the selected species that has no
    [Breed_Type] column, the generator yields its first two updates and then
    raises the KeyError of breed detection: no update carries data. *)
Theorem stream_dies_without_breed_column (clf : Pipeline Image) (fuel : nat)
    (animal : string) (image_path : Path) (df : DataFrame) :
  selected_table cow_breeds buff_breeds animal = Some df ->
  ~ In "Breed_Type" (columns df) ->
  (3 <= fuel)%nat ->
  get_insights_stream Image_open (Some clf) cow_breeds buff_breeds fuel animal image_path
  = ([ mkEvent 5 "Initializing analysis..." None;
       mkEvent 30 "Analyzing image to detect specific breed..." None ],
     Failed (KeyError "Breed_Type")).
Proof.
  intros Hsel Hnot Hfuel.
  assert (Hdetect :
    detect_breed Image_open (Some clf) cow_breeds buff_breeds image_path animal
    = Raise (KeyError "Breed_Type")).
  { apply detect_breed_raise. exists clf, df. auto. }
  do 3 (destruct fuel as [|fuel]; [lia|]).
  unfold get_insights_stream.
  cbn [drain next]. rewrite Hdetect. reflexivity.
Qed.

(** X11: in a run that ends, the breed named in the message of the third
    update is the breed_type of the data the last update carries. *)
Theorem stream_names_the_breed_it_reports (breed_classifier : option (Pipeline Image))
    (fuel : nat) (animal : string) (image_path : Path) (detected_breed : string) :
  detect_breed Image_open breed_classifier cow_breeds buff_breeds image_path animal
  = Ok detected_breed ->
  (7 <= fuel)%nat ->
  exists e1 e2 e3 e4 e5 e6 insights_data,
    get_insights_stream Image_open breed_classifier cow_breeds buff_breeds
      fuel animal image_path = ([e1; e2; e3; e4; e5; e6], Exhausted)
    /\ message e3
       = "Breed detected: " ++ detected_breed ++ ". Fetching business insights..."
    /\ data e6 = Some insights_data
    /\ dict_get insights_data "breed_type" = Some detected_breed.
Proof.
  intros Hdetect Hfuel.
  pose proof (drain_detected Image_open cow_breeds buff_breeds _ _ _ _ _
                Hdetect Hfuel) as Hrun.
  unfold updates, progress_updates, final_update in Hrun. simpl app in Hrun.
  do 7 eexists. split; [exact Hrun|].
  repeat split. apply breed_type_field.
Qed.

(** X12: a consumer that stops after [fuel] updates has seen the first [fuel]
    of the six, and the generator is then suspended, not ended, if [fuel] is
    at most 6. *)
Theorem stream_consumed_partway (breed_classifier : option (Pipeline Image))
    (fuel : nat) (animal : string) (image_path : Path) (detected_breed : string) :
  detect_breed Image_open breed_classifier cow_breeds buff_breeds image_path animal
  = Ok detected_breed ->
  fst (get_insights_stream Image_open breed_classifier cow_breeds buff_breeds
         fuel animal image_path)
  = firstn fuel (updates cow_breeds buff_breeds detected_breed animal)
  /\ ((fuel <= 6)%nat ->
      exists s,
        snd (get_insights_stream Image_open breed_classifier cow_breeds buff_breeds
               fuel animal image_path) = Pending s).
Proof.
  intros Hdetect. unfold get_insights_stream.
  do 7 (destruct fuel as [|fuel];
        [simpl; rewrite ?Hdetect; simpl; split; [reflexivity | eauto]|]).
  simpl. rewrite Hdetect. simpl. split; [reflexivity | lia].
Qed.

End StreamSteps.

(** ** The classifier object over several calls *)

Section ClassifierCalls.

Context {Path Image : Type}.
Variable Image_open : Path -> result Image.

Lemma image_classification_step (self : ImageClassification Image) (image_path : Path) :
  snd (image_classification Image_open self image_path)
  = {| classifier := classifier self;
       labels := labels self;
       last_confidence :=
         match top_score Image_open self image_path with
         | Some s => s
         | None => last_confidence self
         end |}.
Proof.
  unfold image_classification, top_score. destruct self as [clf ls conf]. simpl.
  destruct (Image_open image_path) as [image|]; [|reflexivity].
  destruct (clf image ls) as [[|top others]|]; reflexivity.
Qed.

Lemma top_score_same (self other : ImageClassification Image) (image_path : Path) :
  classifier other = classifier self -> labels other = labels self ->
  top_score Image_open other image_path = top_score Image_open self image_path.
Proof. unfold top_score. now intros -> ->. Qed.

(** X15: [image_classification] raises exactly when opening the image raises
    or the model call raises, with that same exception (there is no [try]);
    the object is then as it was. *)
Theorem image_classification_raises_iff (self : ImageClassification Image)
    (image_path : Path) (e : Exception) :
  (fst (image_classification Image_open self image_path) = Raise e <->
   Image_open image_path = Raise e
   \/ exists image, Image_open image_path = Ok image
                    /\ classifier self image (labels self) = Raise e)
  /\ (fst (image_classification Image_open self image_path) = Raise e ->
      snd (image_classification Image_open self image_path) = self).
Proof.
  unfold image_classification.
  destruct (Image_open image_path) as [image|e0] eqn:Himg.
  - destruct (classifier self image (labels self)) as [[|top others]|e1] eqn:Hres;
      simpl; (split; [split|]); try discriminate; try reflexivity.
    + intros [H | (image' & H & Hraise)]; [discriminate|].
      injection H as <-. congruence.
    + intros [H | (image' & H & Hraise)]; [discriminate|].
      injection H as <-. congruence.
    + intros H. injection H as ->. right. eauto.
    + intros [H | (image' & H & Hraise)]; [discriminate|].
      injection H as <-. congruence.
  - simpl. split; [split|]; try reflexivity.
    + intros H. injection H as ->. now left.
    + intros [H | (image' & H & _)]; [now injection H as -> | discriminate].
Qed.

(** X16: over any sequence of calls, whatever each returned or raised, the
    object keeps its pipeline and its labels, and [last_confidence] is the
    score stored by the latest call whose model answer was not empty, or the
    starting value if there was none. *)
Theorem classify_each_history (self : ImageClassification Image) (paths : list Path) :
  classifier (classify_each Image_open self paths) = classifier self
  /\ labels (classify_each Image_open self paths) = labels self
  /\ last_confidence (classify_each Image_open self paths)
     = fold_left (fun confidence image_path =>
                    match top_score Image_open self image_path with
                    | Some s => s
                    | None => confidence
                    end)
         paths (last_confidence self).
Proof.
  unfold classify_each.
  assert (Hgen : forall object,
    classifier object = classifier self -> labels object = labels self ->
    classifier (fold_left (fun o p => snd (image_classification Image_open o p))
                  paths object) = classifier self
    /\ labels (fold_left (fun o p => snd (image_classification Image_open o p))
                 paths object) = labels self
    /\ last_confidence (fold_left (fun o p => snd (image_classification Image_open o p))
                          paths object)
       = fold_left (fun confidence image_path =>
                      match top_score Image_open self image_path with
                      | Some s => s
                      | None => confidence
                      end)
           paths (last_confidence object)).
  { induction paths as [|p ps IH]; intros object Hc Hl; [auto|].
    simpl. rewrite image_classification_step.
    rewrite (top_score_same self object p Hc Hl).
    apply (IH {| classifier := classifier object; labels := labels object;
                 last_confidence := _ |}); assumption. }
  now apply Hgen.
Qed.

(** X14: a click on "Classify Animal" works on a fresh object.  It shows
    "Unknown" with the confidence 0.0 when the model returns nothing, the
    capitalized label of the first result with its score otherwise; a failure
    to load the model, to open the image or to run the model is not caught. *)
Theorem classify_click_shows (clf : Pipeline Image) (image_path : Path) :
  (forall e, classify_click Image_open (Raise e) image_path = Raise e)
  /\ (forall e, Image_open image_path = Raise e ->
        classify_click Image_open (Ok clf) image_path = Raise e)
  /\ (forall image e,
        Image_open image_path = Ok image ->
        clf image [VStr "cow"; VStr "buffalo"] = Raise e ->
        classify_click Image_open (Ok clf) image_path = Raise e)
  /\ (forall image,
        Image_open image_path = Ok image ->
        clf image [VStr "cow"; VStr "buffalo"] = Ok [] ->
        classify_click Image_open (Ok clf) image_path
        = Ok ("Classification Result: **Unknown**", 0%float))
  /\ (forall image top others,
        Image_open image_path = Ok image ->
        clf image [VStr "cow"; VStr "buffalo"] = Ok (top :: others) ->
        classify_click Image_open (Ok clf) image_path
        = Ok ("Classification Result: **" ++ Py.capitalize (label top) ++ "**",
              score top)).
Proof.
  unfold classify_click, image_classification. simpl.
  split; [reflexivity|].
  split; [intros e ->; reflexivity|].
  split; [intros image e -> ->; reflexivity|].
  split; [intros image -> ->; reflexivity|].
  intros image top others -> ->. reflexivity.
Qed.

End ClassifierCalls.

(** ** The analyzer page *)

Lemma metrics_table_rows (d : Dict) :
  map fst d = insight_keys ->
  exists entry others,
    d = entry :: others
    /\ metrics_table d
       = Ok (map (fun metric =>
                    (fst metric,
                     match dict_get d (snd metric) with
                     | Some v => v
                     | None => ""
                     end))
               display_order).
Proof.
  unfold insight_keys. intros H.
  do 7 (destruct d as [|[? ?] d]; [discriminate H|];
        simpl in H; injection H as -> H).
  destruct d; [|discriminate H].
  do 2 eexists. split; reflexivity.
Qed.

Section AnalyzerPage.

Context {Path Image : Type}.
Variable Image_open : Path -> result Image.
Variables cow_breeds buff_breeds : option DataFrame.

Lemma analyzer_loop_detected (breed_classifier : option (Pipeline Image))
    (fuel : nat) (animal : string) (image_path : Path) (detected_breed : string) :
  detect_breed Image_open breed_classifier cow_breeds buff_breeds image_path animal
  = Ok detected_breed ->
  (7 <= fuel)%nat ->
  analyzer_loop Image_open breed_classifier cow_breeds buff_breeds
    fuel animal image_path Created [] None
  = (map (fun e => (progress e, message e))
       (updates cow_breeds buff_breeds detected_breed animal),
     Completed (Some (get_breed_insights cow_breeds buff_breeds detected_breed animal))).
Proof.
  intros Hdetect Hfuel.
  do 7 (destruct fuel as [|fuel]; [lia|]).
  simpl. rewrite Hdetect. reflexivity.
Qed.

(** X13: on tables keyed by breed name, for every species choice, image and
    model, a click on "Analyze Animal" shows the six updates in order, no
    traceback, and then the table of the seven metrics in display order
    (breed, expenditure, monthly income, annual income, milk, areas, farmers)
    with the values of the record [get_breed_insights] returned for the
    detected breed: no key the table reads is ever missing. *)
Theorem analyze_shows_table (breed_classifier : option (Pipeline Image))
    (fuel : nat) (animal_type : string) (image_path : Path) :
  keyed cow_breeds -> keyed buff_breeds ->
  (7 <= fuel)%nat ->
  exists detected_breed,
    detect_breed Image_open breed_classifier cow_breeds buff_breeds
      image_path (Py.lower animal_type) = Ok detected_breed
    /\ analyze Image_open breed_classifier cow_breeds buff_breeds
         fuel animal_type image_path
       = (map (fun e => (progress e, message e))
            (updates cow_breeds buff_breeds detected_breed (Py.lower animal_type)),
          Table
            (map (fun metric =>
                    (fst metric,
                     match dict_get
                             (get_breed_insights cow_breeds buff_breeds
                                detected_breed (Py.lower animal_type))
                             (snd metric) with
                     | Some v => v
                     | None => ""
                     end))
               display_order))
    /\ dict_get (get_breed_insights cow_breeds buff_breeds
                   detected_breed (Py.lower animal_type)) "breed_type"
       = Some detected_breed.
Proof.
  intros Hc Hb Hfuel.
  destruct (detect_breed_returns Image_open cow_breeds buff_breeds breed_classifier
              image_path (Py.lower animal_type) Hc Hb) as [name Hname].
  exists name. split; [exact Hname|]. split; [|apply breed_type_field].
  unfold analyze.
  rewrite (analyzer_loop_detected _ _ _ _ _ Hname Hfuel).
  destruct (metrics_table_rows _
              (insight_keys_field cow_breeds buff_breeds name (Py.lower animal_type)))
    as (entry & others & Hd & Htable).
  rewrite Hd in Htable |- * at 1.
  now rewrite Htable, <- Hd.
Qed.

End AnalyzerPage.

(** ** Loading and currency *)

Section AfterLoad.

Context {Path Image : Type}.
Variable Image_open : Path -> result Image.

(** X17: the two files are loaded together or not at all: when either read
    fails both tables are the built-in ones, also the one whose file was
    read; and whatever the outcome of the reads, if the frames read have a
    [Breed_Type] column, the generator runs to its end on the loaded tables
    for every model, species tag and image. *)
Theorem analyzer_after_load (cow_csv buff_csv : result DataFrame)
    (breed_classifier : option (Pipeline Image))
    (fuel : nat) (animal : string) (image_path : Path) :
  ((exists e, cow_csv = Raise e) \/ (exists e, buff_csv = Raise e) ->
   load_reference_data cow_csv buff_csv = (sample_cow_breeds, sample_buff_breeds))
  /\ (forall c b, cow_csv = Ok c -> buff_csv = Ok b ->
      load_reference_data cow_csv buff_csv = (c, b))
  /\ ((forall df, cow_csv = Ok df -> In "Breed_Type" (columns df)) ->
      (forall df, buff_csv = Ok df -> In "Breed_Type" (columns df)) ->
      (7 <= fuel)%nat ->
      exists detected_breed,
        get_insights_stream Image_open breed_classifier
          (Some (fst (load_reference_data cow_csv buff_csv)))
          (Some (snd (load_reference_data cow_csv buff_csv)))
          fuel animal image_path
        = (updates (Some (fst (load_reference_data cow_csv buff_csv)))
             (Some (snd (load_reference_data cow_csv buff_csv)))
             detected_breed animal,
           Exhausted)).
Proof.
  split; [|split].
  - intros [[e ->] | [e ->]]; [reflexivity|]. destruct cow_csv; reflexivity.
  - intros c b -> ->. reflexivity.
  - intros Hcow Hbuff Hfuel.
    assert (Hkeyed : keyed (Some (fst (load_reference_data cow_csv buff_csv)))
                     /\ keyed (Some (snd (load_reference_data cow_csv buff_csv)))).
    { destruct cow_csv as [c|]; [destruct buff_csv as [b|]|]; simpl;
        try apply keyed_samples.
      split; intros df H; injection H as <-; auto. }
    destruct Hkeyed as [Hk1 Hk2].
    destruct (detect_breed_returns Image_open _ _ breed_classifier
                image_path animal Hk1 Hk2) as [name Hname].
    exists name. now apply drain_detected.
Qed.

End AfterLoad.

(** X18: a currency string reads back to the amount it was written from, so
    two amounts never share a string. *)
Theorem currency_round_trip (a b : Z) :
  inr_value (format_inr a) = Some a
  /\ (format_inr a = format_inr b -> a = b).
Proof.
  split; [apply inr_value_format|].
  intros H. pose proof (inr_value_format a) as Ha.
  rewrite H, inr_value_format in Ha. now injection Ha.
Qed.

(** ** Concrete runs of the further properties *)

Lemma first_match_is_first_row_witness :
  first_match
    (from_columns [ ("Breed_Type", [VStr "Gir"; VStr "Jersey"; VStr "Jersey"]);
                    ("Cost_Of_Cow_INR", [VInt 1; VInt 2; VInt 3]) ])
    "Jersey"
  = Ok (Some [("Breed_Type", VStr "Jersey"); ("Cost_Of_Cow_INR", VInt 2)]).
Proof.
  apply (first_match_is_first_row
           (from_columns [ ("Breed_Type", [VStr "Gir"; VStr "Jersey"; VStr "Jersey"]);
                           ("Cost_Of_Cow_INR", [VInt 1; VInt 2; VInt 3]) ])
           "Jersey" 0 [[VStr "Gir"; VInt 1]] [[VStr "Jersey"; VInt 3]]
           [VStr "Jersey"; VInt 2]);
    try reflexivity.
  repeat constructor. discriminate.
Defined.

Lemma typed_sample_buff_breeds : typed_frame sample_buff_breeds.
Proof.
  intros j.
  destruct j as [|[|[|[|[|j]]]]];
    [right | left | left | right | left | right]; simpl;
    repeat constructor;
    try (intros n; discriminate);
    try (destruct j; intros n; discriminate);
    try (eexists; split; [reflexivity | unfold Py.int64_range; lia]).
Qed.

Lemma found_record_witness :
  Py.int64_range 60000 /\ Py.int64_range 9000
  /\ get_breed_insights (Some sample_cow_breeds) (Some sample_buff_breeds)
       "Murrah" "Buffalo"
     = [ ("breed_type", "Murrah"); ("starting_expenditure", format_inr 60000);
         ("annual_income", format_inr (Py.wrap_int64 (9000 * 12)));
         ("farmers_percent", "--"); ("popular_areas", "Haryana, Punjab");
         ("milk_per_day", "18 Liters"); ("monthly_income", format_inr 9000) ].
Proof.
  apply (found_record (Some sample_cow_breeds) (Some sample_buff_breeds)
           "Murrah" "Buffalo" sample_buff_breeds
           [ ("Breed_Type", VStr "Murrah"); ("Cost_per_Buffalo_INR", VInt 60000);
             ("Monthly_Income_per_Buffalo_INR", VInt 9000);
             ("Popular_Areas", VStr "Haryana, Punjab");
             ("Milk_per_Day_Liters", VInt 18) ]
           60000 9000);
    try reflexivity.
  apply typed_sample_buff_breeds.
Defined.

(** A frame with an integer of 2^63 or more in an [int64] column is not a
    typed frame. *)
Example untyped_frame :
  ~ typed_frame (from_columns [ ("Breed_Type", [VStr "Gir"]);
                                ("Monthly_Income_INR", [VInt (2 ^ 63 + 2 ^ 60)]) ]).
Proof.
  intros H. destruct (H 1%nat) as [Hint | Htext]; simpl in *.
  - inversion Hint as [|? ? (n & Hn & Hrange) _]; subst.
    injection Hn as <-. unfold Py.int64_range in Hrange. lia.
  - inversion Htext as [|? ? Hcell _]; subst. now apply (Hcell (2 ^ 63 + 2 ^ 60)).
Qed.

Lemma cow_without_cost_column_witness :
  get_breed_insights
    (Some (from_columns [ ("Breed_Type", [VStr "Gir"]);
                          ("Monthly_Income_INR", [VInt 6000]) ]))
    None "Gir" "cow"
  = error_fetching "Gir".
Proof.
  apply (cow_without_cost_column _ None "Gir" "cow"
           (from_columns [ ("Breed_Type", [VStr "Gir"]);
                           ("Monthly_Income_INR", [VInt 6000]) ])
           [("Breed_Type", VStr "Gir"); ("Monthly_Income_INR", VInt 6000)]);
    reflexivity.
Defined.

Lemma buffalo_without_amount_columns_witness :
  get_breed_insights None
    (Some (from_columns [ ("Breed_Type", [VStr "Surti"]) ])) "Surti" "buffalo"
  = [ ("breed_type", "Surti"); ("starting_expenditure", "₹0");
      ("annual_income", "₹0"); ("farmers_percent", "--");
      ("popular_areas", "N/A"); ("milk_per_day", "N/A Liters");
      ("monthly_income", "₹0") ].
Proof.
  apply (buffalo_without_amount_columns None _ "Surti" "buffalo"
           (from_columns [ ("Breed_Type", [VStr "Surti"]) ])
           [("Breed_Type", VStr "Surti")]);
    reflexivity.
Defined.

Lemma income_not_a_number_witness :
  get_breed_insights
    (Some (from_columns [ ("Breed_Type", [VStr "Gir"]);
                          ("Cost_Of_Cow_INR", [VInt 50000]);
                          ("Monthly_Income_INR", [VStr "6,000"]) ]))
    None "Gir" "cow"
  = error_fetching "Gir".
Proof.
  apply (income_not_a_number _ None "Gir" "cow"
           (from_columns [ ("Breed_Type", [VStr "Gir"]);
                           ("Cost_Of_Cow_INR", [VInt 50000]);
                           ("Monthly_Income_INR", [VStr "6,000"]) ])
           [ ("Breed_Type", VStr "Gir"); ("Cost_Of_Cow_INR", VInt 50000);
             ("Monthly_Income_INR", VStr "6,000") ]
           (VStr "6,000")
           (ValueError "invalid literal for int() with base 10: 6,000"));
    reflexivity.
Defined.

Lemma present_breed_is_resolved_witness :
  get_breed_insights (Some sample_cow_breeds) (Some sample_buff_breeds) "Guernsey" "cow"
  <> not_available "Guernsey".
Proof.
  apply (proj1 (present_breed_is_resolved (Some sample_cow_breeds)
                  (Some sample_buff_breeds) "Guernsey" "cow" sample_cow_breeds
                  [VStr "Holstein-Friesian"; VStr "Jersey"; VStr "Guernsey"]
                  eq_refl eq_refl (or_intror (or_intror (or_introl eq_refl))))).
Defined.

Lemma detect_breed_answers_witness :
  "Jersey" = "Default " ++ Py.capitalize "cow"
  \/ "Jersey" = "Unknown " ++ Py.capitalize "cow"
  \/ "Jersey" = "Uncertain " ++ Py.capitalize "cow"
  \/ "Jersey" = "Error detecting breed"
  \/ exists clf candidates image top others,
       Some Run.jersey_model = Some clf
       /\ candidate_labels (Some sample_cow_breeds) (Some sample_buff_breeds) "cow"
          = Ok candidates
       /\ Run.open_any tt = Ok image
       /\ clf image candidates = Ok (top :: others)
       /\ "Jersey" = label top.
Proof.
  apply (detect_breed_answers Run.open_any (Some sample_cow_breeds)
           (Some sample_buff_breeds) (Some Run.jersey_model) tt "cow" "Jersey").
  reflexivity.
Defined.

Lemma stream_dies_without_breed_column_witness :
  get_insights_stream Run.open_any (Some Run.jersey_model)
    (Some Run.unkeyed_cows) None 7 "cow" tt
  = ([ mkEvent 5 "Initializing analysis..." None;
       mkEvent 30 "Analyzing image to detect specific breed..." None ],
     Failed (KeyError "Breed_Type")).
Proof.
  apply (stream_dies_without_breed_column Run.open_any (Some Run.unkeyed_cows) None
           Run.jersey_model 7 "cow" tt Run.unkeyed_cows);
    [reflexivity | | lia].
  simpl. intros [H | [H | [H | []]]]; discriminate H.
Defined.

Lemma stream_names_the_breed_it_reports_witness :
  exists e1 e2 e3 e4 e5 e6 insights_data,
    get_insights_stream Run.open_any (Some Run.jersey_model)
      (Some sample_cow_breeds) (Some sample_buff_breeds) 7 "cow" tt
    = ([e1; e2; e3; e4; e5; e6], Exhausted)
    /\ message e3 = "Breed detected: " ++ "Jersey" ++ ". Fetching business insights..."
    /\ data e6 = Some insights_data
    /\ dict_get insights_data "breed_type" = Some "Jersey".
Proof.
  apply (stream_names_the_breed_it_reports Run.open_any (Some sample_cow_breeds)
           (Some sample_buff_breeds) (Some Run.jersey_model) 7 "cow" tt "Jersey");
    [reflexivity | lia].
Defined.

Lemma stream_consumed_partway_witness :
  fst (get_insights_stream Run.open_any (Some Run.jersey_model)
         (Some sample_cow_breeds) (Some sample_buff_breeds) 3 "cow" tt)
  = firstn 3 (updates (Some sample_cow_breeds) (Some sample_buff_breeds) "Jersey" "cow")
  /\ ((3 <= 6)%nat ->
      exists s,
        snd (get_insights_stream Run.open_any (Some Run.jersey_model)
               (Some sample_cow_breeds) (Some sample_buff_breeds) 3 "cow" tt)
        = Pending s).
Proof.
  apply (stream_consumed_partway Run.open_any (Some sample_cow_breeds)
           (Some sample_buff_breeds) (Some Run.jersey_model) 3 "cow" tt "Jersey").
  reflexivity.
Defined.

Lemma analyze_shows_table_witness :
  exists detected_breed,
    detect_breed Run.open_any (Some Run.jersey_model)
      (Some sample_cow_breeds) (Some sample_buff_breeds) tt (Py.lower "Cow")
    = Ok detected_breed
    /\ analyze Run.open_any (Some Run.jersey_model)
         (Some sample_cow_breeds) (Some sample_buff_breeds) 7 "Cow" tt
       = (map (fun e => (progress e, message e))
            (updates (Some sample_cow_breeds) (Some sample_buff_breeds)
               detected_breed (Py.lower "Cow")),
          Table
            (map (fun metric =>
                    (fst metric,
                     match dict_get
                             (get_breed_insights (Some sample_cow_breeds)
                                (Some sample_buff_breeds)
                                detected_breed (Py.lower "Cow"))
                             (snd metric) with
                     | Some v => v
                     | None => ""
                     end))
               display_order))
    /\ dict_get (get_breed_insights (Some sample_cow_breeds) (Some sample_buff_breeds)
                   detected_breed (Py.lower "Cow")) "breed_type"
       = Some detected_breed.
Proof.
  apply (analyze_shows_table Run.open_any (Some sample_cow_breeds)
           (Some sample_buff_breeds) (Some Run.jersey_model) 7 "Cow" tt);
    [apply keyed_samples | apply keyed_samples | lia].
Defined.

Example analyze_jersey :
  snd (analyze Run.open_any (Some Run.jersey_model)
         (Some sample_cow_breeds) (Some sample_buff_breeds) 7 "Cow" tt)
  = Table [ ("Breed Type", "Jersey"); ("Starting Expenditure", "₹45,000");
            ("Monthly Income", "₹7,500"); ("Annual Income", "₹90,000");
            ("Milk Production (per day)", "15 Liters"); ("Popular Areas", "Global");
            ("Farmers Percentage", "--") ].
Proof. reflexivity. Qed.

Lemma analyzer_after_load_witness :
  load_reference_data (Ok Run.rich_cows) (Raise (OSError "buff_breeds.csv not found"))
  = (sample_cow_breeds, sample_buff_breeds)
  /\ exists detected_breed,
       get_insights_stream Run.open_any (Some Run.silent_model)
         (Some (fst (load_reference_data (Ok Run.rich_cows)
                       (Raise (OSError "buff_breeds.csv not found")))))
         (Some (snd (load_reference_data (Ok Run.rich_cows)
                       (Raise (OSError "buff_breeds.csv not found")))))
         7 "buffalo" tt
       = (updates
            (Some (fst (load_reference_data (Ok Run.rich_cows)
                          (Raise (OSError "buff_breeds.csv not found")))))
            (Some (snd (load_reference_data (Ok Run.rich_cows)
                          (Raise (OSError "buff_breeds.csv not found")))))
            detected_breed "buffalo",
          Exhausted).
Proof.
  destruct (analyzer_after_load Run.open_any (Ok Run.rich_cows)
              (Raise (OSError "buff_breeds.csv not found"))
              (Some Run.silent_model) 7 "buffalo" tt) as (Hfail & _ & Hrun).
  split; [apply Hfail; right; eauto|].
  apply Hrun; [| |lia].
  - intros df H. injection H as <-. simpl. auto.
  - intros df H. discriminate H.
Defined.

Lemma classify_click_shows_witness :
  classify_click Run.open_any (Ok Run.cow_model) tt
  = Ok ("Classification Result: **Cow**", 0.9%float)
  /\ classify_click Run.open_any (Ok Run.silent_model) tt
     = Ok ("Classification Result: **Unknown**", 0%float)
  /\ classify_click Run.open_any (Ok Run.failing_model) tt
     = Raise (RuntimeError "inference failed").
Proof.
  destruct (classify_click_shows Run.open_any Run.cow_model tt)
    as (_ & _ & _ & _ & Htop).
  destruct (classify_click_shows Run.open_any Run.silent_model tt)
    as (_ & _ & _ & Hempty & _).
  destruct (classify_click_shows Run.open_any Run.failing_model tt)
    as (_ & _ & Hfail & _).
  split; [|split].
  - exact (Htop tt (mkPrediction "cow" 0.9) [mkPrediction "buffalo" 0.1]
             eq_refl eq_refl).
  - exact (Hempty tt eq_refl eq_refl).
  - exact (Hfail tt (RuntimeError "inference failed") eq_refl eq_refl).
Defined.

Lemma detect_breed_raises_iff_witness :
  detect_breed Run.open_any (Some Run.jersey_model) (Some Run.unkeyed_cows) None tt "cow"
  = Raise (KeyError "Breed_Type").
Proof.
  apply (detect_breed_raises_iff Run.open_any (Some Run.unkeyed_cows) None
           (Some Run.jersey_model) tt "cow" (KeyError "Breed_Type")).
  exists Run.jersey_model, Run.unkeyed_cows. repeat split.
  simpl. intros [H | [H | [H | []]]]; discriminate H.
Defined.
